(** * controllers/hoots.js: the hoot and comment routes

    A shallow embedding of the eight route handlers of
    [controllers/hoots.js] over an in-memory model of the [Hoot]
    collection, and the properties of the authorization and
    sub-document contract that hold of them.

    Conventions.
    - An [ObjectId] is a number.  [req.params.hootId] is a string that
      casts to an ObjectId or does not; a query on one that does not is
      rejected.  [req.params.commentId] is taken as cast: it is only
      compared with the [_id]s of the comments of one post.
    - The collection is the sequence of its documents in natural
      (insertion) order; a lookup by [_id] yields the first document
      that carries it, and [create] refuses an [_id] already stored.
    - A handler is a function from the collection to a response and the
      collection afterwards.  An awaited call that rejects and a
      dereference of [null] or [undefined] both raise; the [catch]
      block of every handler turns what was raised into status 500.
    - The [_id] that a new document receives and the clock used for
      [createdAt] are arguments of the handlers that create documents,
      and whether the database can be reached while a request is served
      is an argument of every handler. *)

From Stdlib Require Import ZArith String.
From stdpp Require Import base option list sorting strings gmap.

Local Open Scope Z_scope.

Abbreviation ObjectId := N (only parsing).

(** ** Documents *)

(** [req.user]: the token payload placed on the request by
    [verifyToken]; it is what the handlers put in place of [author] in
    their responses. *)
Module User.
Record t := mk { _id : ObjectId; username : string }.
End User.

(** A field of a JSON object received from a client: not there, there
    with [null], or there with a value. *)
Module Field.
Inductive t (A : Type) :=
  | missing
  | null
  | val (a : A).
Arguments missing {A}.
Arguments null {A}.
Arguments val {A} a.

(** What a document built from the object holds at the path. *)
Definition get {A} (f : t A) : option A :=
  match f with
  | val a => Some a
  | missing | null => None
  end.

(** What a document holds at the path after [{ $set: object }], when it
    held [old] before. *)
Definition set {A} (f : t A) (old : option A) : option A :=
  match f with
  | missing => old
  | null => None
  | val a => Some a
  end.
End Field.

(** [req.params.hootId]: a string of the path. *)
Module Param.
Inductive t :=
  | hex (id : ObjectId)     (* a string that casts to this ObjectId *)
  | other (s : string).     (* any other string *)

Definition cast (p : t) : option ObjectId :=
  match p with
  | hex id => Some id
  | other _ => None
  end.
End Param.

(** Modelled from the spec: the comment sub-schema of [models/hoot.js],
    which is not part of the sources at hand.  The fields are those of
    section 3 of the specification; a path that was never set is
    [None]. *)
Module Comment.
Record t := mk {
  _id : ObjectId;
  author : option ObjectId;
  text : option string;
  createdAt : Z }.

(** [comment.text = v] *)
Definition set_text (v : option string) (c : t) : t :=
  mk (_id c) (author c) v (createdAt c).
End Comment.

(** [req.body]: the fields of the JSON object that the schema knows.
    [comments], when the object has it, is an array, given as the
    sub-documents to which its elements are cast. *)
Module Body.
Record t := mk {
  author : Field.t ObjectId;
  title : Field.t string;
  text : Field.t string;
  comments : option (list Comment.t) }.

(** [req.body.author = id] *)
Definition set_author (id : ObjectId) (b : t) : t :=
  mk (Field.val id) (title b) (text b) (comments b).
End Body.

(** Modelled from the spec: the hoot schema of [models/hoot.js], which
    is not part of the sources at hand.  The fields are those of
    section 3 of the specification. *)
Module Hoot.
Record t := mk {
  _id : ObjectId;
  author : option ObjectId;
  title : option string;
  text : option string;
  comments : list Comment.t;
  createdAt : Z }.

Definition set_comments (cs : list Comment.t) (h : t) : t :=
  mk (_id h) (author h) (title h) (text h) cs (createdAt h).

(** [new Hoot(body)]: the document built from a body, with the
    [_id] and the [createdAt] it receives. *)
Definition new (oid : ObjectId) (now : Z) (b : Body.t) : t :=
  mk oid (Field.get (Body.author b)) (Field.get (Body.title b))
     (Field.get (Body.text b)) (default [] (Body.comments b)) now.

(** The effect of [{ $set: body }] on a stored document: every field
    present in the body replaces the stored one, [null] included. *)
Definition assign (b : Body.t) (h : t) : t :=
  mk (_id h)
     (Field.set (Body.author b) (author h))
     (Field.set (Body.title b) (title h))
     (Field.set (Body.text b) (text h))
     (default (comments h) (Body.comments b))
     (createdAt h).
End Hoot.

Abbreviation Store := (list Hoot.t) (only parsing).

(** ** What a handler sends *)

(** What can be raised inside a [try] block. *)
Inductive Exn :=
  | TypeError              (* a property read on null or undefined *)
  | CastError              (* a query on a string that is no ObjectId *)
  | NetworkError           (* the database cannot be reached *)
  | ValidationError        (* the schema rejects the document *)
  | DuplicateKey           (* insert of an _id already in the collection *)
  | DocumentNotFoundError. (* save of a document no longer stored *)

(** The [author] path of a serialised document. *)
Inductive AuthorJson :=
  | Absent                    (* the path was never set *)
  | Null                      (* populated, no such user *)
  | Ref (id : ObjectId)       (* the stored reference *)
  | Profile (u : User.t).     (* a user document *)

Record CommentJson := mkCommentJson {
  cj_id : ObjectId;
  cj_author : AuthorJson;
  cj_text : option string;
  cj_createdAt : Z }.

Record HootJson := mkHootJson {
  j_id : ObjectId;
  j_author : AuthorJson;
  j_title : option string;
  j_text : option string;
  j_comments : list CommentJson;
  j_createdAt : Z }.

Inductive Json :=
  | JNull
  | JHoot (h : HootJson)
  | JHoots (hs : list HootJson)
  | JComment (c : CommentJson)
  | JMessage (m : string)     (* { message: m } *)
  | JError (e : Exn).

Inductive Sent :=
  | send (s : string)         (* res.send(s) *)
  | json (j : Json).          (* res.json(j) *)

Record Response := res { status : nat; sent : Sent }.

Definition ref_json (a : option ObjectId) : AuthorJson :=
  match a with Some id => Ref id | None => Absent end.

Definition comment_toJSON (c : Comment.t) : CommentJson :=
  mkCommentJson (Comment._id c) (ref_json (Comment.author c))
                (Comment.text c) (Comment.createdAt c).

Definition toJSON (h : Hoot.t) : HootJson :=
  mkHootJson (Hoot._id h) (ref_json (Hoot.author h)) (Hoot.title h)
             (Hoot.text h) (comment_toJSON <$> Hoot.comments h)
             (Hoot.createdAt h).

(** [hoot._doc.author = a] *)
Definition with_author (a : AuthorJson) (h : HootJson) : HootJson :=
  mkHootJson (j_id h) a (j_title h) (j_text h) (j_comments h)
             (j_createdAt h).

(** [comment._doc.author = a] *)
Definition comment_with_author (a : AuthorJson) (c : CommentJson)
  : CommentJson :=
  mkCommentJson (cj_id c) a (cj_text c) (cj_createdAt c).

(** ** The monad of a [try] block

    A computation reads and writes the collection and either returns or
    raises.  What was written before a raise stays written. *)
Definition M (S A : Type) : Type := S → (Exn + A) * S.

Definition throw {S A} (e : Exn) : M S A := λ st, (inl e, st).

Global Instance M_ret {S} : MRet (M S) := λ A a st, (inr a, st).

Global Instance M_bind {S} : MBind (M S) := λ A B k m st,
  match m st with
  | (inl e, st') => (inl e, st')
  | (inr a, st') => k a st'
  end.

(** Reading a property of [o]: raises when [o] is null or undefined. *)
Definition deref {S A} (o : option A) : M S A :=
  match o with
  | Some a => mret a
  | None => throw TypeError
  end.

(** [try { m } catch (error) { res.status(500).json(error) }] *)
Definition handle {S} (m : M S Response) (st : S) : Response * S :=
  match m st with
  | (inr r, st') => (r, st')
  | (inl e, st') => (res 500 (json (JError e)), st')
  end.

(** [a.equals(b)] on two ObjectIds *)
Definition equals (a b : ObjectId) : bool := bool_decide (a = b).

(** ** The sub-document array [hoot.comments] *)

(** [comments.id(id)]: the first sub-document whose [_id] is [id], as a
    position in the array together with the document found there, so
    that an assignment through the result reaches the array. *)
Definition comments_id (cs : list Comment.t) (id : ObjectId)
  : option (nat * Comment.t) :=
  list_find (λ c, Comment._id c = id) cs.

(** [comments.remove({ _id: id })], that is [pull]: every sub-document
    whose [_id] is [id] leaves the array. *)
Definition comments_remove (cs : list Comment.t) (id : ObjectId)
  : list Comment.t :=
  filter (λ c, Comment._id c ≠ id) cs.

(** [comments.push(body)]: the body is cast to a sub-document, which
    receives its own [_id] and [createdAt]. *)
Definition comments_push (cs : list Comment.t) (oid : ObjectId) (now : Z)
  (b : Body.t) : list Comment.t :=
  cs ++ [Comment.mk oid (Field.get (Body.author b))
                    (Field.get (Body.text b)) now].

(** [createdAt] descending: [a] may stand before [b]. *)
Definition newer_first (a b : Hoot.t) : Prop :=
  Hoot.createdAt b ≤ Hoot.createdAt a.

Global Instance newer_first_dec a b : Decision (newer_first a b).
Proof. unfold newer_first. apply _. Defined.

(** [.sort({ createdAt: 'desc' })]; the order among documents of equal
    [createdAt] is left open by the database, and nothing below depends
    on it. *)
Definition sort_desc (hs : list Hoot.t) : list Hoot.t :=
  merge_sort newer_first hs.

(** Whether the database can be reached while a request is served. *)
Inductive Link := Up | Down.

(** A request that has passed [verifyToken]: the route, the caller
    [req.user] where the handler reads it, [req.params], [req.body],
    and for the routes that create a document the [_id] and the time
    it will receive. *)
Inductive Request :=
  | CreatePost (user : User.t) (body : Body.t) (oid : ObjectId) (now : Z)
  | ListPosts
  | GetPost (hootId : Param.t)
  | UpdatePost (user : User.t) (hootId : Param.t) (body : Body.t)
  | DeletePost (user : User.t) (hootId : Param.t)
  | UpdateComment (hootId : Param.t) (commentId : ObjectId) (body : Body.t)
  | AddComment (user : User.t) (hootId : Param.t) (body : Body.t)
      (oid : ObjectId) (now : Z)
  | RemoveComment (hootId : Param.t) (commentId : ObjectId).

Section Controller.

(** The validation that [models/hoot.js] attaches to the schema and
    that runs before a document is written by [create] or [save]. *)
Variable validate : Hoot.t → bool.

(** Whether the database answers while the request is served. *)
Variable link : Link.

(** The [User] collection, read by [populate]. *)
Variable users : gmap N User.t.

(** ** The model [Hoot] *)

(** [.populate('author')] on one document *)
Definition populate (h : Hoot.t) : HootJson :=
  match Hoot.author h with
  | Some id =>
      with_author (match users !! id with
                   | Some u => Profile u
                   | None => Null
                   end) (toJSON h)
  | None => toJSON h
  end.

(** The query [{ _id: id }]: the first document of the collection
    that carries [id], with its position. *)
Definition findOne (id : ObjectId) (st : Store)
  : option (nat * Hoot.t) :=
  list_find (λ h, Hoot._id h = id) st.

(** A round trip to the database: it is rejected when the database
    cannot be reached. *)
Definition query {A} (m : M Store A) : M Store A :=
  match link with
  | Up => m
  | Down => throw NetworkError
  end.

(** The cast of the [_id] of a query filter, made before the query is
    sent. *)
Definition castObjectId (p : Param.t) : M Store ObjectId :=
  match Param.cast p with
  | Some id => mret id
  | None => throw CastError
  end.

(** [Hoot.create(body)]: build the document, validate, insert. *)
Definition Hoot_create (oid : ObjectId) (now : Z) (b : Body.t)
  : M Store Hoot.t :=
  let h := Hoot.new oid now b in
  if negb (validate h) then throw ValidationError
  else query (λ st,
         match findOne oid st with
         | Some _ => (inl DuplicateKey, st)
         | None => (inr h, st ++ [h])
         end).

(** [Hoot.find({})] *)
Definition Hoot_find : M Store (list Hoot.t) :=
  query (λ st, (inr st, st)).

(** [Hoot.findById(id)] *)
Definition Hoot_findById (p : Param.t) : M Store (option Hoot.t) :=
  id ← castObjectId p;
  query (λ st, (inr (snd <$> findOne id st), st)).

(** [Hoot.findByIdAndUpdate(id, body, { new: true })]: no validation
    runs; the document after the update is returned, [null] when
    there is none. *)
Definition Hoot_findByIdAndUpdate (p : Param.t) (b : Body.t)
  : M Store (option Hoot.t) :=
  id ← castObjectId p;
  query (λ st,
    match findOne id st with
    | Some (i, h) =>
        (inr (Some (Hoot.assign b h)), <[i := Hoot.assign b h]> st)
    | None => (inr None, st)
    end).

(** [Hoot.findByIdAndDelete(id)]: the document removed, [null] when
    there is none. *)
Definition Hoot_findByIdAndDelete (p : Param.t)
  : M Store (option Hoot.t) :=
  id ← castObjectId p;
  query (λ st,
    match findOne id st with
    | Some (i, h) => (inr (Some h), delete i st)
    | None => (inr None, st)
    end).

(** [hoot.save()] of a document obtained from the collection:
    validate, then replace the stored document of the same [_id]. *)
Definition Hoot_save (h : Hoot.t) : M Store unit :=
  if negb (validate h) then throw ValidationError
  else query (λ st,
         match findOne (Hoot._id h) st with
         | Some (i, _) => (inr (), <[i := h]> st)
         | None => (inl DocumentNotFoundError, st)
         end).

(** ** The routes *)

(** [router.post('/')], CreatePost *)
Definition router_post (user : User.t) (body : Body.t)
  (oid : ObjectId) (now : Z) : Store → Response * Store :=
  handle (
    let body := Body.set_author (User._id user) body in
    hoot ← Hoot_create oid now body;
    let hoot := with_author (Profile user) (toJSON hoot) in
    mret (res 201 (json (JHoot hoot)))).

(** [router.get('/')], ListPosts *)
Definition router_get : Store → Response * Store :=
  handle (
    hoots ← Hoot_find;
    let hoots := populate <$> sort_desc hoots in
    mret (res 200 (json (JHoots hoots)))).

(** [router.get('/:hootId')], GetPost *)
Definition router_get_hootId (hootId : Param.t)
  : Store → Response * Store :=
  handle (
    hoot ← Hoot_findById hootId;
    let hoot := populate <$> hoot in
    mret (res 200 (json (match hoot with
                         | Some h => JHoot h
                         | None => JNull
                         end)))).

(** [router.put('/:hootId')], UpdatePost *)
Definition router_put_hootId (user : User.t) (hootId : Param.t)
  (body : Body.t) : Store → Response * Store :=
  handle (
    hoot ← Hoot_findById hootId;
    hoot ← deref hoot;
    author ← deref (Hoot.author hoot);
    if negb (equals author (User._id user)) then
      mret (res 403 (send "You're not allowed to do that!"))
    else
      updatedHoot ← Hoot_findByIdAndUpdate hootId body;
      updatedHoot ← deref updatedHoot;
      let updatedHoot := with_author (Profile user) (toJSON updatedHoot) in
      mret (res 200 (json (JHoot updatedHoot)))).

(** [router.delete('/:hootId')], DeletePost *)
Definition router_delete_hootId (user : User.t) (hootId : Param.t)
  : Store → Response * Store :=
  handle (
    hoot ← Hoot_findById hootId;
    hoot ← deref hoot;
    author ← deref (Hoot.author hoot);
    if negb (equals author (User._id user)) then
      mret (res 403 (send "You're not allowed to do that!"))
    else
      deletedHoot ← Hoot_findByIdAndDelete hootId;
      mret (res 200 (json (match deletedHoot with
                           | Some h => JHoot (toJSON h)
                           | None => JNull
                           end)))).

(** [router.put('/:hootId/comments/:commentId')], UpdateComment *)
Definition router_put_comment (hootId : Param.t) (commentId : ObjectId)
  (body : Body.t) : Store → Response * Store :=
  handle (
    hoot ← Hoot_findById hootId;
    hoot ← deref hoot;
    comment ← deref (comments_id (Hoot.comments hoot) commentId);
    let hoot :=
      Hoot.set_comments
        (<[comment.1 := Comment.set_text (Field.get (Body.text body))
                                         comment.2]>
           (Hoot.comments hoot)) hoot in
    _ ← Hoot_save hoot;
    mret (res 200 (json (JMessage "Ok")))).

(** [router.post('/:hootId/comments')], AddComment *)
Definition router_post_comments (user : User.t) (hootId : Param.t)
  (body : Body.t) (oid : ObjectId) (now : Z)
  : Store → Response * Store :=
  handle (
    let body := Body.set_author (User._id user) body in
    hoot ← Hoot_findById hootId;
    hoot ← deref hoot;
    let hoot :=
      Hoot.set_comments (comments_push (Hoot.comments hoot) oid now body)
                        hoot in
    _ ← Hoot_save hoot;
    newComment ← deref (Hoot.comments hoot
                          !! (length (Hoot.comments hoot) - 1)%nat);
    let newComment :=
      comment_with_author (Profile user) (comment_toJSON newComment) in
    mret (res 201 (json (JComment newComment)))).

(** [router.delete('/:hootId/comments/:commentId')], RemoveComment *)
Definition router_delete_comment (hootId : Param.t) (commentId : ObjectId)
  : Store → Response * Store :=
  handle (
    hoot ← Hoot_findById hootId;
    hoot ← deref hoot;
    let hoot :=
      Hoot.set_comments (comments_remove (Hoot.comments hoot) commentId)
                        hoot in
    _ ← Hoot_save hoot;
    mret (res 200 (json (JMessage "Ok")))).

(** [router]: the request is dispatched to the handler registered for
    its method and path. *)
Definition router (r : Request) : Store → Response * Store :=
  match r with
  | CreatePost user body oid now => router_post user body oid now
  | ListPosts => router_get
  | GetPost hootId => router_get_hootId hootId
  | UpdatePost user hootId body => router_put_hootId user hootId body
  | DeletePost user hootId => router_delete_hootId user hootId
  | UpdateComment hootId commentId body =>
      router_put_comment hootId commentId body
  | AddComment user hootId body oid now =>
      router_post_comments user hootId body oid now
  | RemoveComment hootId commentId =>
      router_delete_comment hootId commentId
  end.

(** The collection after a sequence of requests served one after the
    other. *)
Definition serve (rs : list Request) (st : Store) : Store :=
  foldl (λ st r, (router r st).2) st rs.

End Controller.

(** ** Sample data

    Two users, and collections on which the statements below are
    exercised. *)
Module Sample.
Definition alice : User.t := User.mk 10 "alice".
Definition bob : User.t := User.mk 20 "bob".

Definition users : gmap N User.t := {[ 10%N := alice; 20%N := bob ]}.

(** A schema whose validation accepts every document. *)
Definition lenient (h : Hoot.t) : bool := true.

(** A schema in which [text] is required, on hoots and on comments. *)
Definition text_required (h : Hoot.t) : bool :=
  bool_decide (is_Some (Hoot.text h))
  && forallb (λ c, bool_decide (is_Some (Comment.text c)))
             (Hoot.comments h).

Definition c1 : Comment.t := Comment.mk 101 (Some 20%N) (Some "first") 11.
Definition c2 : Comment.t := Comment.mk 102 (Some 10%N) (Some "second") 12.
Definition c3 : Comment.t := Comment.mk 103 (Some 20%N) (Some "third") 13.

(** Alice's hoot, with three comments. *)
Definition p1 : Hoot.t :=
  Hoot.mk 1 (Some 10%N) (Some "t") (Some "x") [c1; c2; c3] 1000.

(** Bob's hoot, created later. *)
Definition p2 : Hoot.t :=
  Hoot.mk 2 (Some 20%N) (Some "u") (Some "y") [] 2000.

Definition store : list Hoot.t := [p1; p2].

(** A post in which two comments carry the same [_id]. *)
Definition c1b : Comment.t := Comment.mk 101 (Some 10%N) (Some "again") 14.

Definition p3 : Hoot.t :=
  Hoot.mk 3 (Some 10%N) (Some "v") (Some "z") [c1; c2; c1b] 3000.

(** [{ text: 'new' }] *)
Definition new_text : Body.t :=
  Body.mk Field.missing Field.missing (Field.val "new") None.

(** [{ author: bob, text: 'mine' }] *)
Definition forged : Body.t :=
  Body.mk (Field.val 20%N) Field.missing (Field.val "mine") None.

(** [{ text: 'edited' }] *)
Definition edit : Body.t :=
  Body.mk Field.missing Field.missing (Field.val "edited") None.

(** [{ text: 'hi' }] *)
Definition hi : Body.t :=
  Body.mk Field.missing Field.missing (Field.val "hi") None.

(** [{ author: bob, title: 't', text: 'x', comments: [c1] }] *)
Definition draft : Body.t :=
  Body.mk (Field.val 20%N) (Field.val "t") (Field.val "x") (Some [c1]).


(** [{ author: null }] *)
Definition orphan : Body.t :=
  Body.mk Field.null Field.missing Field.missing None.

(** [{}] *)
Definition empty : Body.t :=
  Body.mk Field.missing Field.missing Field.missing None.

(** [{ author: alice, text: 'hi' }] *)
Definition hi_as_alice : Body.t :=
  Body.mk (Field.val 10%N) Field.missing (Field.val "hi") None.

(** [{ author: bob, title: 't', text: 'x' }] *)
Definition hoot_as_bob : Body.t :=
  Body.mk (Field.val 20%N) (Field.val "t") (Field.val "x") None.

(** [{ title: 't' }] *)
Definition no_text : Body.t :=
  Body.mk Field.missing (Field.val "t") Field.missing None.

(** [{ author: bob, text: 'new' }] *)
Definition hijack : Body.t :=
  Body.mk (Field.val 20%N) Field.missing (Field.val "new") None.

(** [{ text: 'mine' }] *)
Definition mine : Body.t :=
  Body.mk Field.missing Field.missing (Field.val "mine") None.

(** [{ text: 'taken' }] *)
Definition taken : Body.t :=
  Body.mk Field.missing Field.missing (Field.val "taken") None.
End Sample.

(** * Properties *)

(** The status and payload with which UpdatePost and DeletePost refuse a
    caller. *)
Definition Forbidden : Response :=
  res 403 (send "You're not allowed to do that!").

(** The response of a handler whose [try] block read a property of a
    document that was not found. *)
Definition NotFound : Response := res 500 (json (JError TypeError)).

(** A response that reports a failure to the client. *)
Definition failure (r : Response) : Prop := (400 ≤ status r)%nat.

(** [{ message: 'Ok' }] with status 200 *)
Definition Acknowledgement : Response := res 200 (json (JMessage "Ok")).



(** The [_id]s of a sub-document array, in order. *)
Definition comment_ids (cs : list Comment.t) : list ObjectId :=
  Comment._id <$> cs.

(** The collection holds no two posts of the same [_id]. *)
Definition unique_ids (st : list Hoot.t) : Prop :=
  NoDup (Hoot._id <$> st).

(** The routes under [/:hootId/comments]. *)
Definition comment_route (r : Request) (hootId : Param.t) : Prop :=
  match r with
  | UpdateComment id _ _ | AddComment _ id _ _ _ | RemoveComment id _ =>
      id = hootId
  | _ => False
  end.

(** The [:hootId] of the path, for the routes that have one. *)
Definition target (r : Request) : option Param.t :=
  match r with
  | CreatePost _ _ _ _ | ListPosts => None
  | GetPost id | UpdatePost _ id _ | DeletePost _ id
  | UpdateComment id _ _ | AddComment _ id _ _ _ | RemoveComment id _ =>
      Some id
  end.

(** The routes registered with [router.post]. *)
Definition creates (r : Request) : bool :=
  match r with
  | CreatePost _ _ _ _ | AddComment _ _ _ _ _ => true
  | _ => false
  end.

(** The comments of a post after a request on one of the comment
    routes has edited them in memory. *)
Definition edited (r : Request) (cs : list Comment.t) : list Comment.t :=
  match r with
  | UpdateComment _ commentId body =>
      match comments_id cs commentId with
      | Some (k, c) =>
          <[k := Comment.set_text (Field.get (Body.text body)) c]> cs
      | None => cs
      end
  | AddComment user _ body oid now =>
      comments_push cs oid now (Body.set_author (User._id user) body)
  | RemoveComment _ commentId => comments_remove cs commentId
  | _ => cs
  end.

(** What one request can do to the collection, and with which status:
    append a new post, replace a post by its update, take a post out,
    replace a post by itself with other comments, or nothing. *)
Inductive step (validate : Hoot.t → bool) (st : list Hoot.t)
  : Request → Response → list Hoot.t → Prop :=
  | step_create user body oid now resp :
      findOne oid st = None →
      validate (Hoot.new oid now (Body.set_author (User._id user) body))
        = true →
      status resp = 201%nat →
      step validate st (CreatePost user body oid now) resp
        (st ++ [Hoot.new oid now (Body.set_author (User._id user) body)])
  | step_update user hootId body i h resp :
      findOne hootId st = Some (i, h) →
      Hoot.author h = Some (User._id user) →
      status resp = 200%nat →
      step validate st (UpdatePost user (Param.hex hootId) body) resp
        (<[i := Hoot.assign body h]> st)
  | step_delete user hootId i h resp :
      findOne hootId st = Some (i, h) →
      Hoot.author h = Some (User._id user) →
      status resp = 200%nat →
      step validate st (DeletePost user (Param.hex hootId)) resp
        (delete i st)
  | step_comments r hootId i h resp :
      comment_route r (Param.hex hootId) →
      findOne hootId st = Some (i, h) →
      validate (Hoot.set_comments (edited r (Hoot.comments h)) h) = true →
      status resp = (if creates r then 201 else 200)%nat →
      step validate st r resp
        (<[i := Hoot.set_comments (edited r (Hoot.comments h)) h]> st)
  | step_read r resp :
      r = ListPosts ∨ (∃ hootId, r = GetPost hootId) →
      status resp = 200%nat →
      step validate st r resp st
  | step_forbidden r :
      (∃ user hootId i h a,
         (r = DeletePost user (Param.hex hootId)
          ∨ ∃ body, r = UpdatePost user (Param.hex hootId) body)
         ∧ findOne hootId st = Some (i, h)
         ∧ Hoot.author h = Some a ∧ a ≠ User._id user) →
      step validate st r Forbidden st
  | step_error r e :
      step validate st r (res 500 (json (JError e))) st.

(** Evaluation of a handler body: unfold the monad and the model. *)
Ltac run :=
  unfold Hoot_create, Hoot_find, Hoot_findById, Hoot_findByIdAndUpdate,
    Hoot_findByIdAndDelete, Hoot_save, query, castObjectId,
    handle, mbind, M_bind, mret, M_ret, throw, deref; simpl.

(** A statement that names [Up] is about a request served while the
    database can be reached, and one that names [Param.hex] about a
    [:hootId] that casts to an ObjectId; the statements over [link] hold
    whether the database can be reached or not. *)
Section Properties.

Variable validate : Hoot.t → bool.
Variable link : Link.
Variable users : gmap N User.t.

(** *** Facts about the collection *)

Lemma findOne_id id st i h : findOne id st = Some (i, h) → Hoot._id h = id.
Proof.
  unfold findOne. intros H. by apply list_find_Some in H as (_ & ? & _).
Qed.

Lemma findOne_lookup id st i h :
  findOne id st = Some (i, h) → st !! i = Some h.
Proof. unfold findOne. intros H. by apply list_find_Some in H as (? & _). Qed.

(** Replacing the document found by one of the same [_id] leaves it
    the document found. *)
Lemma findOne_insert id st i h h' :
  findOne id st = Some (i, h) → Hoot._id h' = id →
  findOne id (<[i := h']> st) = Some (i, h').
Proof.
  unfold findOne. intros H Hid.
  apply list_find_Some in H as (Hi & _ & Hlt).
  apply list_find_Some. split_and!; [|done|].
  - apply list_lookup_insert_eq. by eapply lookup_lt_Some.
  - intros j y Hj Hji. rewrite list_lookup_insert_ne in Hj by lia. eauto.
Qed.

(** With the database up, [findById] of a string that casts answers
    with what the collection holds. *)
Lemma findById_hex id st :
  Hoot_findById Up (Param.hex id) st = (inr (snd <$> findOne id st), st).
Proof. reflexivity. Qed.

(** *** UpdatePost and DeletePost: the ownership check *)

(** C2.  A caller who is not the author of an existing post is
    refused by UpdatePost and by DeletePost with status 403, and the
    collection after the call is the collection before it. *)
Theorem forbidden_no_mutation user hootId body st i h a :
  findOne hootId st = Some (i, h) →
  Hoot.author h = Some a →
  a ≠ User._id user →
  router_put_hootId Up user (Param.hex hootId) body st = (Forbidden, st)
  ∧ router_delete_hootId Up user (Param.hex hootId) st = (Forbidden, st).
Proof.
  intros Hfind Ha Hne.
  unfold router_put_hootId, router_delete_hootId. run.
  rewrite Hfind. simpl. rewrite Ha. simpl.
  unfold equals. rewrite bool_decide_eq_false_2 by done. done.
Qed.

(** UpdatePost by the author: the body is applied to the stored
    document as it is, and the response carries the caller in place
    of [author]. *)
Lemma put_hootId_by_author user hootId body st i h :
  findOne hootId st = Some (i, h) →
  Hoot.author h = Some (User._id user) →
  router_put_hootId Up user (Param.hex hootId) body st =
    (res 200 (json (JHoot (with_author (Profile user)
                             (toJSON (Hoot.assign body h))))),
     <[i := Hoot.assign body h]> st).
Proof.
  intros Hfind Ha. unfold router_put_hootId. run.
  rewrite Hfind. simpl. rewrite Ha. simpl.
  unfold equals. rewrite bool_decide_eq_true_2 by done. simpl.
  by rewrite Hfind.
Qed.

(** A body without [author] leaves the stored author in place; a body
    with one replaces it, by nothing when it is [null]. *)
Lemma assign_author body h :
  Hoot.author (Hoot.assign body h) =
    Field.set (Body.author body) (Hoot.author h).
Proof. reflexivity. Qed.

(** *** CreatePost *)

Lemma findOne_app_new id st h :
  findOne id st = None → Hoot._id h = id →
  findOne id (st ++ [h]) = Some (length st, h).
Proof.
  unfold findOne. intros Hnone Hid.
  apply list_find_None in Hnone.
  apply list_find_Some. split_and!; [|done|].
  - by rewrite lookup_app_r, Nat.sub_diag.
  - intros j y Hj Hlt. rewrite lookup_app_l in Hj by done.
    rewrite Forall_forall in Hnone. apply Hnone.
    eapply list_elem_of_lookup_2, Hj.
Qed.

(** C3.  Whatever the body holds, [author] included, the post that
    CreatePost stores for caller [user] has [user]'s identity as its
    author: given an unused [_id] and a document the schema accepts,
    the handler answers 201 with the caller as [author], and the
    collection gains exactly that document. *)
Theorem post_author_is_caller user body oid now st :
  findOne oid st = None →
  validate (Hoot.new oid now (Body.set_author (User._id user) body))
    = true →
  ∃ h,
    router_post validate Up user body oid now st =
      (res 201 (json (JHoot (with_author (Profile user) (toJSON h)))),
       st ++ [h])
    ∧ findOne oid (st ++ [h]) = Some (length st, h)
    ∧ Hoot.author h = Some (User._id user)
    ∧ Hoot.title h = Field.get (Body.title body)
    ∧ Hoot.text h = Field.get (Body.text body).
Proof.
  intros Hfresh Hvalid.
  exists (Hoot.new oid now (Body.set_author (User._id user) body)).
  split_and!; try reflexivity.
  - unfold router_post. run. rewrite Hvalid. simpl. by rewrite Hfresh.
  - by apply findOne_app_new.
Qed.

(** *** GetPost *)

(** C4, as the code has it.  For an id that no stored post carries,
    GetPost answers 200 with [null] and leaves the collection as it
    was. *)
Theorem get_hootId_missing hootId st :
  findOne hootId st = None →
  router_get_hootId Up users (Param.hex hootId) st = (res 200 (json JNull), st).
Proof.
  intros Hnone. unfold router_get_hootId. run. by rewrite Hnone.
Qed.

(** GetPost of a stored post answers 200 with the post, populated. *)
Lemma get_hootId_found hootId st i h :
  findOne hootId st = Some (i, h) →
  router_get_hootId Up users (Param.hex hootId) st =
    (res 200 (json (JHoot (populate users h))), st).
Proof.
  intros Hfind. unfold router_get_hootId. run. by rewrite Hfind.
Qed.

(** *** The sub-document array *)

Lemma comments_id_None cs id :
  comments_id cs id = None ↔ id ∉ comment_ids cs.
Proof.
  unfold comments_id, comment_ids.
  rewrite list_find_None, Forall_forall, list_elem_of_fmap. split.
  - intros Hall (c & -> & Hc). by apply (Hall c).
  - intros Hnot c Hc Hid. apply Hnot. by exists c.
Qed.

(** [comments.id] finds the first sub-document that carries the id. *)
Lemma comments_id_first l1 c l2 id :
  Comment._id c = id → id ∉ comment_ids l1 →
  comments_id (l1 ++ c :: l2) id = Some (length l1, c).
Proof.
  intros Hc Hl1. unfold comments_id. apply list_find_Some.
  split_and!; [by apply list_lookup_middle|done|].
  intros j y Hj Hlt Hy. rewrite lookup_app_l in Hj by done.
  apply Hl1. unfold comment_ids. apply list_elem_of_fmap.
  exists y. split; [done|]. eapply list_elem_of_lookup_2, Hj.
Qed.

Lemma comments_remove_absent cs id :
  id ∉ comment_ids cs → comments_remove cs id = cs.
Proof.
  unfold comments_remove, comment_ids.
  induction cs as [|c cs IH]; intros Hid; [done|].
  rewrite fmap_cons in Hid. apply not_elem_of_cons in Hid as [Hc Hcs].
  rewrite filter_cons_True by congruence. by rewrite IH.
Qed.

Lemma comments_remove_single l1 c l2 id :
  Comment._id c = id → id ∉ comment_ids (l1 ++ l2) →
  comments_remove (l1 ++ c :: l2) id = l1 ++ l2.
Proof.
  intros Hc Hid. unfold comment_ids in Hid. rewrite fmap_app in Hid.
  apply not_elem_of_app in Hid as [H1 H2].
  pose proof (comments_remove_absent l1 id H1) as E1.
  pose proof (comments_remove_absent l2 id H2) as E2.
  unfold comments_remove in *.
  rewrite filter_app, filter_cons_False by (intros Hn; by apply Hn).
  by rewrite E1, E2.
Qed.

(** Whatever the ids, removal keeps the remaining sub-documents in
    their order. *)
Lemma comments_remove_sublist cs id : comments_remove cs id `sublist_of` cs.
Proof. apply sublist_filter. Qed.

Lemma comments_push_last (cs : list Comment.t) (c : Comment.t) :
  (cs ++ [c]) !! (length (cs ++ [c]) - 1)%nat = Some c.
Proof.
  rewrite length_app. simpl.
  replace (length cs + 1 - 1)%nat with (length cs) by lia.
  by apply list_lookup_middle.
Qed.

(** [save] of a document that was found under [hootId], with another
    array of comments. *)
Lemma save_found hootId st i h cs :
  findOne hootId st = Some (i, h) →
  Hoot_save validate Up (Hoot.set_comments cs h) st =
    if validate (Hoot.set_comments cs h)
    then (inr (), <[i := Hoot.set_comments cs h]> st)
    else (inl ValidationError, st).
Proof.
  intros Hfind. unfold Hoot_save, query, throw.
  destruct (validate _); simpl; [|done].
  by rewrite (findOne_id _ _ _ _ Hfind), Hfind.
Qed.

Lemma set_comments_id h : Hoot.set_comments (Hoot.comments h) h = h.
Proof. by destruct h. Qed.

(** *** AddComment *)

(** C5.  On an existing post, for any caller, AddComment (given a
    document the schema accepts) answers 201, and the post's comments
    afterwards are the comments before with one new comment at the
    end, whose author is the caller.  When no post carries the id,
    AddComment fails through the handler's [catch] and changes
    nothing. *)
Theorem post_comments_appends user hootId body oid now st :
  (∀ i h,
     findOne hootId st = Some (i, h) →
     validate
       (Hoot.set_comments
          (Hoot.comments h
             ++ [Comment.mk oid (Some (User._id user))
                            (Field.get (Body.text body)) now])
          h) = true →
     ∃ c h',
       router_post_comments validate Up user (Param.hex hootId) body oid now
         st =
         (res 201 (json (JComment (comment_with_author (Profile user)
                                     (comment_toJSON c)))),
          <[i := h']> st)
       ∧ findOne hootId (<[i := h']> st) = Some (i, h')
       ∧ Hoot.comments h' = Hoot.comments h ++ [c]
       ∧ length (Hoot.comments h') = S (length (Hoot.comments h))
       ∧ Comment.author c = Some (User._id user)
       ∧ Comment.text c = Field.get (Body.text body))
  ∧ (findOne hootId st = None →
     router_post_comments validate Up user (Param.hex hootId) body oid now st =
       (NotFound, st)).
Proof.
  split.
  - intros i h Hfind Hvalid.
    eexists (Comment.mk oid (Some (User._id user))
                        (Field.get (Body.text body)) now),
            (Hoot.set_comments _ h).
    split_and!; [| |reflexivity| |reflexivity|reflexivity].
    + unfold router_post_comments, handle, mbind, M_bind.
  rewrite findById_hex.
      rewrite Hfind. simpl.
      unfold comments_push. simpl.
      rewrite (save_found _ _ _ _ _ Hfind), Hvalid.
      rewrite comments_push_last. reflexivity.
    + eapply findOne_insert; [done|]. simpl. by eapply findOne_id.
    + simpl. rewrite length_app. simpl. lia.
  - intros Hnone. unfold router_post_comments. run. by rewrite Hnone.
Qed.

(** *** RemoveComment *)

(** RemoveComment on a stored post: the array without the
    sub-documents that carry the id is saved. *)
Lemma delete_comment_found hootId commentId st i h :
  findOne hootId st = Some (i, h) →
  validate
    (Hoot.set_comments (comments_remove (Hoot.comments h) commentId) h)
    = true →
  router_delete_comment validate Up (Param.hex hootId) commentId st =
    (Acknowledgement,
     <[i := Hoot.set_comments
              (comments_remove (Hoot.comments h) commentId) h]> st).
Proof.
  intros Hfind Hvalid.
  unfold router_delete_comment, handle, mbind, M_bind.
  rewrite findById_hex.
  rewrite Hfind. simpl.
  by rewrite (save_found _ _ _ _ _ Hfind), Hvalid.
Qed.

(** C6.  When the post's comments are [l1 ++ c :: l2], [c] carries the
    id and no other comment does, RemoveComment (given a document the
    schema accepts) acknowledges and leaves the post with the
    comments [l1 ++ l2]: [c] alone is gone and the others keep their
    order. *)
Theorem delete_comment_removes_one hootId commentId st i h l1 c l2 :
  findOne hootId st = Some (i, h) →
  Hoot.comments h = l1 ++ c :: l2 →
  Comment._id c = commentId →
  commentId ∉ comment_ids (l1 ++ l2) →
  validate (Hoot.set_comments (l1 ++ l2) h) = true →
  router_delete_comment validate Up (Param.hex hootId) commentId st =
    (Acknowledgement, <[i := Hoot.set_comments (l1 ++ l2) h]> st)
  ∧ findOne hootId (<[i := Hoot.set_comments (l1 ++ l2) h]> st) =
      Some (i, Hoot.set_comments (l1 ++ l2) h)
  ∧ Hoot.comments (Hoot.set_comments (l1 ++ l2) h) = l1 ++ l2.
Proof.
  intros Hfind Hcs Hc Hothers Hvalid.
  pose proof (comments_remove_single l1 c l2 commentId Hc Hothers) as E.
  split_and!; [| |reflexivity].
  - rewrite (delete_comment_found _ _ _ _ _ Hfind); rewrite Hcs, E; done.
  - eapply findOne_insert; [done|]. simpl. by eapply findOne_id.
Qed.

(** C10.  On an existing post none of whose comments carries the id,
    RemoveComment (the stored document being one the schema accepts)
    acknowledges with status 200 and leaves the collection, and so
    the post's comments, as they were. *)
Theorem delete_comment_absent_is_ok hootId commentId st i h :
  findOne hootId st = Some (i, h) →
  commentId ∉ comment_ids (Hoot.comments h) →
  validate h = true →
  router_delete_comment validate Up (Param.hex hootId) commentId st =
    (Acknowledgement, st).
Proof.
  intros Hfind Habsent Hvalid.
  pose proof (comments_remove_absent _ _ Habsent) as E.
  rewrite (delete_comment_found _ _ _ _ _ Hfind);
    rewrite E, set_comments_id; [|done].
  by rewrite list_insert_id by (by eapply findOne_lookup).
Qed.

(** *** UpdateComment *)

Lemma insert_middle {A} (l1 l2 : list A) x y :
  <[length l1 := y]> (l1 ++ x :: l2) = l1 ++ y :: l2.
Proof.
  replace (length l1) with (length l1 + 0)%nat by lia.
  by rewrite insert_app_r.
Qed.

(** UpdateComment when the post and the comment are found. *)
Lemma put_comment_found hootId commentId body st i h k c :
  findOne hootId st = Some (i, h) →
  comments_id (Hoot.comments h) commentId = Some (k, c) →
  router_put_comment validate Up (Param.hex hootId) commentId body st =
    let h' := Hoot.set_comments
                (<[k := Comment.set_text (Field.get (Body.text body)) c]>
                   (Hoot.comments h)) h in
    if validate h' then (Acknowledgement, <[i := h']> st)
    else (res 500 (json (JError ValidationError)), st).
Proof.
  intros Hfind Hc.
  unfold router_put_comment, handle, mbind, M_bind.
  rewrite findById_hex.
  rewrite Hfind. simpl. rewrite Hc. simpl.
  rewrite (save_found _ _ _ _ _ Hfind).
  by destruct (validate _).
Qed.

(** C7.  When the post's comments are [l1 ++ c :: l2] and [c] is the
    first to carry the id, UpdateComment (given a document the schema
    accepts) acknowledges and replaces the post by one whose comments
    are [l1 ++ c' :: l2], where [c'] is [c] with the text of the
    body: the comment keeps its id, author and date, the other
    comments, their order and their number are as before, the other
    fields of the post are as before, and every other document of the
    collection is untouched. *)
Theorem put_comment_sets_text_only hootId commentId body st i h l1 c l2 :
  findOne hootId st = Some (i, h) →
  Hoot.comments h = l1 ++ c :: l2 →
  Comment._id c = commentId →
  commentId ∉ comment_ids l1 →
  validate
    (Hoot.set_comments
       (l1 ++ Comment.set_text (Field.get (Body.text body)) c :: l2) h)
    = true →
  ∃ c' h',
    router_put_comment validate Up (Param.hex hootId) commentId body st =
      (Acknowledgement, <[i := h']> st)
    ∧ findOne hootId (<[i := h']> st) = Some (i, h')
    ∧ (∀ j, j ≠ i → <[i := h']> st !! j = st !! j)
    ∧ Hoot.comments h' = l1 ++ c' :: l2
    ∧ length (Hoot.comments h') = length (Hoot.comments h)
    ∧ Comment.text c' = Field.get (Body.text body)
    ∧ Comment._id c' = Comment._id c
    ∧ Comment.author c' = Comment.author c
    ∧ Comment.createdAt c' = Comment.createdAt c
    ∧ Hoot._id h' = Hoot._id h
    ∧ Hoot.author h' = Hoot.author h
    ∧ Hoot.title h' = Hoot.title h
    ∧ Hoot.text h' = Hoot.text h
    ∧ Hoot.createdAt h' = Hoot.createdAt h.
Proof.
  intros Hfind Hcs Hc Hfirst Hvalid.
  exists (Comment.set_text (Field.get (Body.text body)) c),
         (Hoot.set_comments
            (l1 ++ Comment.set_text (Field.get (Body.text body)) c :: l2) h).
  split_and!; try reflexivity.
  - rewrite (put_comment_found _ _ _ _ _ _ (length l1) c Hfind)
      by (rewrite Hcs; by apply comments_id_first).
    simpl. rewrite Hcs, insert_middle. by rewrite Hvalid.
  - eapply findOne_insert; [done|]. simpl. by eapply findOne_id.
  - intros j Hj. by apply list_lookup_insert_ne.
  - simpl. rewrite Hcs, !length_app. reflexivity.
Qed.

(** C8.  UpdateComment answers with the failure of a document not
    found exactly when no post carries [hootId], or the post that
    does has no comment carrying [commentId]; the collection is then
    as it was. *)
Theorem put_comment_not_found_iff hootId commentId body st :
  ((router_put_comment validate Up (Param.hex hootId) commentId body st).1
     = NotFound
   ↔ findOne hootId st = None
     ∨ ∃ i h, findOne hootId st = Some (i, h)
              ∧ commentId ∉ comment_ids (Hoot.comments h))
  ∧ ((router_put_comment validate Up (Param.hex hootId) commentId body st).1
       = NotFound
     → (router_put_comment validate Up (Param.hex hootId) commentId body
          st).2 = st).
Proof.
  destruct (findOne hootId st) as [[i h]|] eqn:Hfind.
  - destruct (comments_id (Hoot.comments h) commentId) as [[k c]|] eqn:Hc.
    + rewrite (put_comment_found _ _ _ _ _ _ _ _ Hfind Hc). simpl.
      assert (¬ (commentId ∉ comment_ids (Hoot.comments h))) as Hin.
      { rewrite <- comments_id_None. congruence. }
      destruct (validate _); simpl; (split; [split|]); try discriminate.
      all: intros [?|(? & ? & ? & ?)]; [discriminate|]; by simplify_eq.
    + assert (router_put_comment validate Up (Param.hex hootId) commentId
                body st =
                (NotFound, st)) as ->.
      { unfold router_put_comment. run. rewrite Hfind. simpl.
        by rewrite Hc. }
      apply comments_id_None in Hc. split; [|done].
      split; [|done]. intros _. right. by exists i, h.
  - assert (router_put_comment validate Up (Param.hex hootId) commentId
              body st =
              (NotFound, st)) as ->.
    { unfold router_put_comment. run. by rewrite Hfind. }
    split; [|done]. split; [|done]. intros _. by left.
Qed.

(** *** ListPosts *)

Global Instance newer_first_total : Total newer_first.
Proof. intros a b. unfold newer_first. lia. Qed.

Global Instance newer_first_trans : Transitive newer_first.
Proof. intros a b c. unfold newer_first. lia. Qed.

Lemma sort_desc_sorted st : StronglySorted newer_first (sort_desc st).
Proof. apply StronglySorted_merge_sort; apply _. Qed.

Lemma sort_desc_perm st : sort_desc st ≡ₚ st.
Proof. apply merge_sort_Permutation. Qed.

(** In a strongly sorted list, an earlier element is related to every
    later one. *)
Lemma StronglySorted_lookup_lt {A} (R : relation A) (l : list A) i j x y :
  StronglySorted R l → l !! i = Some x → l !! j = Some y → (i < j)%nat →
  R x y.
Proof.
  intros Hs. revert i j. induction Hs as [|z l Hs IH Hall]; intros i j.
  - by rewrite lookup_nil.
  - destruct j as [|j]; [lia|]. destruct i as [|i]; simpl.
    + intros [= ->] Hy _. rewrite Forall_forall in Hall.
      apply Hall. eapply list_elem_of_lookup_2, Hy.
    + intros Hx Hy Hlt. apply (IH i j); [done..|lia].
  Qed.


Lemma populate_author h a u :
  Hoot.author h = Some a → users !! a = Some u →
  j_author (populate users h) = Profile u.
Proof. intros Ha Hu. unfold populate. by rewrite Ha, Hu. Qed.

(** C9.  ListPosts answers 200 with the stored posts, all of them and
    each once, and leaves the collection as it was.  The posts come
    newest first: none stands before one of a later date, so that of
    two stored posts [A] and [B] with [A] created before [B], [B]
    stands before [A] in the answer.  Each post is answered with its
    own fields and comments and with its author replaced by the
    profile that the user collection holds for it ([null] when it
    holds none). *)
Theorem get_lists_newest_first st :
  ∃ hoots,
    router_get Up users st =
      (res 200 (json (JHoots (populate users <$> hoots))), st)
    ∧ hoots ≡ₚ st
    ∧ (∀ i j A B, hoots !! i = Some A → hoots !! j = Some B →
                  (i < j)%nat → Hoot.createdAt B ≤ Hoot.createdAt A)
    ∧ (∀ A B, A ∈ st → B ∈ st →
              Hoot.createdAt A < Hoot.createdAt B →
              ∃ i j, (i < j)%nat
                     ∧ (populate users <$> hoots) !! i
                         = Some (populate users B)
                     ∧ (populate users <$> hoots) !! j
                         = Some (populate users A))
    ∧ (∀ h,
         populate users h =
           mkHootJson
             (Hoot._id h)
             (match Hoot.author h with
              | Some a => match users !! a with
                          | Some u => Profile u
                          | None => Null
                          end
              | None => Absent
              end)
             (Hoot.title h)
             (Hoot.text h)
             ((λ c, mkCommentJson
                      (Comment._id c)
                      (match Comment.author c with
                       | Some a => Ref a
                       | None => Absent
                       end)
                      (Comment.text c)
                      (Comment.createdAt c)) <$> Hoot.comments h)
             (Hoot.createdAt h)).
Proof.
  exists (sort_desc st).
  split_and!; [reflexivity|apply sort_desc_perm| | |].
  - intros i j A B Hi Hj Hlt.
    apply (StronglySorted_lookup_lt _ _ i j A B (sort_desc_sorted st)
             Hi Hj Hlt).
  - intros A B HA HB Hlt.
    rewrite <- (sort_desc_perm st) in HA, HB.
    apply list_elem_of_lookup_1 in HA as [iA HiA].
    apply list_elem_of_lookup_1 in HB as [iB HiB].
    exists iB, iA. rewrite !list_lookup_fmap, HiA, HiB.
    split_and!; [|done..].
    destruct (decide (iB < iA)%nat) as [|Hge]; [done|]. exfalso.
    destruct (decide (iA = iB)) as [->|Hne].
    + rewrite HiA in HiB. injection HiB as ->. lia.
    + pose proof (StronglySorted_lookup_lt _ _ iA iB A B
                    (sort_desc_sorted st) HiA HiB) as Hord.
      unfold newer_first in Hord. lia.
  - intros h. unfold populate, toJSON, with_author.
    by destruct (Hoot.author h).
Qed.

(** ** Further properties of the routes *)

(** *** Requests that are turned down *)

(** CreatePost answers 500 and stores nothing when the schema rejects
    the document, and when the document is accepted but its [_id] is
    already in the collection. *)
Theorem post_rejected user body oid now st :
  validate (Hoot.new oid now (Body.set_author (User._id user) body))
    = false
  ∨ is_Some (findOne oid st) →
  ∃ e, router_post validate Up user body oid now st =
         (res 500 (json (JError e)), st)
       ∧ (e = ValidationError ∨ e = DuplicateKey)
       ∧ (e = ValidationError ↔
          validate (Hoot.new oid now
                      (Body.set_author (User._id user) body)) = false).
Proof.
  intros Hbad. unfold router_post. run.
  destruct (validate _) eqn:Hv; simpl.
  - destruct Hbad as [|[x Hx]]; [done|]. rewrite Hx.
    exists DuplicateKey. split_and!; [done|by right|done].
  - exists ValidationError. split_and!; [done|by left|done].
Qed.

(** UpdatePost, DeletePost and RemoveComment on an id that no stored
    post carries: the handler reads a property of [null], answers 500
    and leaves the collection as it was. *)
Theorem missing_post_not_found user hootId commentId body st :
  findOne hootId st = None →
  router_put_hootId Up user (Param.hex hootId) body st = (NotFound, st)
  ∧ router_delete_hootId Up user (Param.hex hootId) st = (NotFound, st)
  ∧ router_delete_comment validate Up (Param.hex hootId) commentId st
      = (NotFound, st).
Proof.
  intros Hnone.
  unfold router_put_hootId, router_delete_hootId, router_delete_comment.
  run. by rewrite Hnone.
Qed.

(** When [save] rejects the edited post, AddComment, RemoveComment and
    UpdateComment answer 500 with the validation error and the stored
    post keeps its comments: the edit made in memory is lost. *)
Theorem comment_save_rejected user hootId commentId body oid now st i h :
  findOne hootId st = Some (i, h) →
  (validate
     (Hoot.set_comments
        (comments_push (Hoot.comments h) oid now
           (Body.set_author (User._id user) body)) h) = false →
   router_post_comments validate Up user (Param.hex hootId) body oid now st =
     (res 500 (json (JError ValidationError)), st))
  ∧ (validate
       (Hoot.set_comments (comments_remove (Hoot.comments h) commentId) h)
       = false →
     router_delete_comment validate Up (Param.hex hootId) commentId st =
       (res 500 (json (JError ValidationError)), st))
  ∧ (∀ k c,
       comments_id (Hoot.comments h) commentId = Some (k, c) →
       validate
         (Hoot.set_comments
            (<[k := Comment.set_text (Field.get (Body.text body)) c]>
               (Hoot.comments h))
            h) = false →
       router_put_comment validate Up (Param.hex hootId) commentId body st =
         (res 500 (json (JError ValidationError)), st)).
Proof.
  intros Hfind. split_and!.
  - intros Hv.
    unfold router_post_comments, handle, mbind, M_bind.
  rewrite findById_hex.
    rewrite Hfind. simpl. by rewrite (save_found _ _ _ _ _ Hfind), Hv.
  - intros Hv.
    unfold router_delete_comment, handle, mbind, M_bind.
  rewrite findById_hex.
    rewrite Hfind. simpl. by rewrite (save_found _ _ _ _ _ Hfind), Hv.
  - intros k c Hc Hv.
    rewrite (put_comment_found _ _ _ _ _ _ _ _ Hfind Hc). simpl.
    by rewrite Hv.
Qed.

(** *** UpdatePost and DeletePost by the author *)


(** DeletePost by the author takes the post out of the collection, the
    other posts keeping their order, and answers 200 with the post as
    it was stored, its [author] left as the bare reference. *)
Theorem delete_hootId_by_author user hootId st i h :
  findOne hootId st = Some (i, h) →
  Hoot.author h = Some (User._id user) →
  router_delete_hootId Up user (Param.hex hootId) st =
    (res 200 (json (JHoot (toJSON h))), delete i st)
  ∧ j_author (toJSON h) = Ref (User._id user)
  ∧ st = take i st ++ h :: drop (S i) st
  ∧ delete i st = take i st ++ drop (S i) st
  ∧ S (length (delete i st)) = length st.
Proof.
  intros Hfind Ha. pose proof (findOne_lookup _ _ _ _ Hfind) as Hi.
  split_and!.
  - unfold router_delete_hootId. run.
    rewrite Hfind. simpl. rewrite Ha. simpl.
    unfold equals. rewrite bool_decide_eq_true_2 by done. simpl.
    by rewrite Hfind.
  - simpl. by rewrite Ha.
  - by rewrite take_drop_middle.
  - apply delete_take_drop.
  - rewrite length_delete by eauto.
    apply lookup_lt_Some in Hi. lia.
Qed.

(** *** RemoveComment with an id that occurs more than once *)

(** RemoveComment, when the edited post is accepted, removes every
    comment that carries the id and keeps every other one where it
    stood; UpdateComment with that id then finds nothing. *)
Theorem delete_comment_removes_all hootId commentId body st i h :
  findOne hootId st = Some (i, h) →
  validate
    (Hoot.set_comments (comments_remove (Hoot.comments h) commentId) h)
    = true →
  ∃ h',
    router_delete_comment validate Up (Param.hex hootId) commentId st =
      (Acknowledgement, <[i := h']> st)
    ∧ findOne hootId (<[i := h']> st) = Some (i, h')
    ∧ (commentId ∉ comment_ids (Hoot.comments h'))
    ∧ (Hoot.comments h' `sublist_of` Hoot.comments h)
    ∧ (∀ c, c ∈ Hoot.comments h' ↔
            c ∈ Hoot.comments h ∧ Comment._id c ≠ commentId)
    ∧ router_put_comment validate Up (Param.hex hootId) commentId body
        (<[i := h']> st)
        = (NotFound, <[i := h']> st).
Proof.
  intros Hfind Hvalid.
  exists (Hoot.set_comments (comments_remove (Hoot.comments h) commentId) h).
  assert (commentId ∉
            comment_ids (comments_remove (Hoot.comments h) commentId))
    as Hgone.
  { unfold comment_ids, comments_remove. rewrite list_elem_of_fmap.
    intros (c & -> & Hc). apply list_elem_of_filter in Hc as [Hne _].
    by apply Hne. }
  assert (findOne hootId
            (<[i := Hoot.set_comments
                      (comments_remove (Hoot.comments h) commentId) h]> st)
          = Some (i, Hoot.set_comments
                       (comments_remove (Hoot.comments h) commentId) h))
    as Hfind'.
  { eapply findOne_insert; [done|]. simpl. by eapply findOne_id. }
  split_and!; [by apply delete_comment_found|done|done
              |apply comments_remove_sublist| |].
  - intros c. simpl. unfold comments_remove.
    rewrite list_elem_of_filter. tauto.
  - unfold router_put_comment. run. rewrite Hfind'. simpl.
    apply comments_id_None in Hgone. by rewrite Hgone.
Qed.

(** *** The router as a transition system *)

(** Every request is served in one of the ways of [step]. *)
Lemma router_step r st :
  step validate st r (router validate link users r st).1
       (router validate link users r st).2.
Proof.
  destruct r as [user body oid now| |p|user p body|user p
                |p commentId body|user p body oid now
                |p commentId]; simpl.
  - unfold router_post. run. destruct (validate _) eqn:Hv; simpl;
      [|apply step_error].
    destruct link; simpl; [|apply step_error].
    destruct (findOne oid st) eqn:Hfind; simpl.
    + apply step_error.
    + by apply step_create.
  - unfold router_get. run. destruct link; simpl; [|apply step_error].
    apply step_read; [by left|done].
  - unfold router_get_hootId. run.
    destruct p as [hootId|s]; simpl; [|apply step_error].
    destruct link; simpl; [|apply step_error].
    destruct (findOne hootId st); apply step_read; eauto.
  - unfold router_put_hootId. run.
    destruct p as [hootId|s]; simpl; [|apply step_error].
    destruct link; simpl; [|apply step_error].
    destruct (findOne hootId st) as [[i h]|] eqn:Hfind; simpl;
      [|apply step_error].
    destruct (Hoot.author h) as [a|] eqn:Ha; simpl; [|apply step_error].
    unfold equals. case_bool_decide as Heq; simpl.
    + rewrite Hfind. simpl. subst a. by eapply step_update.
    + apply step_forbidden. exists user, hootId, i, h, a. eauto 10.
  - unfold router_delete_hootId. run.
    destruct p as [hootId|s]; simpl; [|apply step_error].
    destruct link; simpl; [|apply step_error].
    destruct (findOne hootId st) as [[i h]|] eqn:Hfind; simpl;
      [|apply step_error].
    destruct (Hoot.author h) as [a|] eqn:Ha; simpl; [|apply step_error].
    unfold equals. case_bool_decide as Heq; simpl.
    + rewrite Hfind. simpl. subst a. by eapply step_delete.
    + apply step_forbidden. exists user, hootId, i, h, a. eauto 10.
  - destruct p as [hootId|s];
      [|unfold router_put_comment; run; apply step_error].
    destruct link; [|unfold router_put_comment; run; apply step_error].
    destruct (findOne hootId st) as [[i h]|] eqn:Hfind.
    + destruct (comments_id (Hoot.comments h) commentId) as [[k c]|] eqn:Hc.
      * rewrite (put_comment_found _ _ _ _ _ _ _ _ Hfind Hc). simpl.
        destruct (validate _) eqn:Hv; simpl; [|apply step_error].
        pose proof (step_comments validate st
                      (UpdateComment (Param.hex hootId) commentId body)
                      hootId i h Acknowledgement eq_refl Hfind) as Hstep.
        simpl in Hstep. rewrite Hc in Hstep. by apply Hstep.
      * unfold router_put_comment. run. rewrite Hfind. simpl.
        rewrite Hc. apply step_error.
    + unfold router_put_comment. run. rewrite Hfind.
      apply step_error.
  - destruct p as [hootId|s];
      [|unfold router_post_comments; run; apply step_error].
    destruct link; [|unfold router_post_comments; run; apply step_error].
    unfold router_post_comments, handle, mbind, M_bind.
    rewrite findById_hex.
    destruct (findOne hootId st) as [[i h]|] eqn:Hfind; simpl;
      [|apply step_error].
    rewrite (save_found _ _ _ _ _ Hfind).
    destruct (validate _) eqn:Hv; simpl; [|apply step_error].
    unfold comments_push. rewrite comments_push_last. simpl.
    by apply (step_comments validate st
                (AddComment user (Param.hex hootId) body oid now)
                hootId i h).
  - destruct p as [hootId|s];
      [|unfold router_delete_comment; run; apply step_error].
    destruct link; [|unfold router_delete_comment; run; apply step_error].
    unfold router_delete_comment, handle, mbind, M_bind.
    rewrite findById_hex.
    destruct (findOne hootId st) as [[i h]|] eqn:Hfind; simpl;
      [|apply step_error].
    rewrite (save_found _ _ _ _ _ Hfind).
    destruct (validate _) eqn:Hv; simpl; [|apply step_error].
    by apply (step_comments validate st
                (RemoveComment (Param.hex hootId) commentId) hootId i h).
Qed.

Lemma router_step_eq r st resp st' :
  router validate link users r st = (resp, st') → step validate st r resp st'.
Proof. intros E. pose proof (router_step r st) as H. by rewrite E in H. Qed.

(** The statuses the router answers with are 200, 201, 403 and 500;
    201 comes from the two routes registered with [router.post] and
    from them only, which never answer 200, and 403 comes only from
    the two routes that check ownership. *)
Theorem router_statuses r st :
  let s := status (router validate link users r st).1 in
  (s = 200 ∨ s = 201 ∨ s = 403 ∨ s = 500)%nat
  ∧ (s = 201%nat →
     (∃ user body oid now, r = CreatePost user body oid now)
     ∨ (∃ user hootId body oid now,
          r = AddComment user hootId body oid now))
  ∧ (s = 200%nat → creates r = false)
  ∧ (s = 403%nat →
     (∃ user hootId body, r = UpdatePost user hootId body)
     ∨ (∃ user hootId, r = DeletePost user hootId)).
Proof.
  simpl.
  destruct (router validate link users r st) as [resp st'] eqn:Hrun.
  apply router_step_eq in Hrun. simpl.
  inversion Hrun as [user body oid now resp' Hf Hv Hs
                    |user hootId body i h resp' Hf Ha Hs
                    |user hootId i h resp' Hf Ha Hs
                    |r' hootId i h resp' Hr Hf Hv Hs
                    |r' resp' Hr Hs
                    |r' (user & hootId & i & h & a & Hr & _)
                    |r' e]; subst.
  - rewrite Hs. split_and!; [auto|intros _; left; by eexists _, _, _, _|done..].
  - rewrite Hs. split_and!; [auto|done..].
  - rewrite Hs. split_and!; [auto|done..].
  - rewrite Hs.
    destruct r; simpl in Hr; try done; simpl;
      (split_and!; [auto|try done..]).
    intros _. right. by eexists _, _, _, _, _.
  - rewrite Hs. split_and!; [auto|done| |done].
    intros _. by destruct Hr as [->|[hootId ->]].
  - simpl. split_and!; [auto|done..|].
    intros _. destruct Hr as [->|[body ->]].
    + right. by eexists _, _.
    + left. by eexists _, _, _.
  - simpl. split_and!; [auto 10|done..].
Qed.

(** *** Failures write nothing *)

(** A request that is answered with a status of 400 or more has left
    the collection as it was: no route writes and then fails. *)
Theorem failure_leaves_unchanged r st :
  failure (router validate link users r st).1 →
  (router validate link users r st).2 = st.
Proof.
  unfold failure. intros Hfail.
  destruct (router validate link users r st) as [resp st'] eqn:Hrun.
  apply router_step_eq in Hrun. simpl in *.
  inversion Hrun as [user body oid now resp' Hf Hv Hs
                    |user hootId body k hk resp' Hf Ha Hs
                    |user hootId k hk resp' Hf Ha Hs
                    |r' hootId k hk resp' Hr Hf Hv Hs
                    | | |]; subst; try done.
  all: exfalso; rewrite Hs in Hfail; try lia.
  destruct (creates _); lia.
Qed.

(** *** Lookups after a write elsewhere *)

Lemma findOne_insert_other id st i h j h' :
  findOne id st = Some (i, h) → j ≠ i → Hoot._id h' ≠ id →
  findOne id (<[j := h']> st) = Some (i, h).
Proof.
  unfold findOne. intros H Hj Hid.
  apply list_find_Some in H as (Hi & HP & Hlt).
  apply list_find_Some. split_and!; [|done|].
  - by rewrite list_lookup_insert_ne.
  - intros k y Hk Hki.
    apply list_lookup_insert_Some in Hk as [(-> & <- & _)|[_ Hk]]; eauto.
Qed.

Lemma findOne_delete_other id st i h j :
  findOne id st = Some (i, h) → j ≠ i →
  ∃ i', findOne id (delete j st) = Some (i', h).
Proof.
  unfold findOne. intros H Hj.
  apply list_find_Some in H as (Hi & HP & Hlt).
  destruct (decide (j < i)%nat) as [Hlo|Hhi].
  - exists (pred i). apply list_find_Some. split_and!; [|done|].
    + rewrite list_lookup_delete_ge by lia.
      by replace (S (pred i)) with i by lia.
    + intros k y Hk Hki. destruct (decide (k < j)%nat).
      * rewrite list_lookup_delete_lt in Hk by done.
        apply (Hlt k); [done|lia].
      * rewrite list_lookup_delete_ge in Hk by lia.
        apply (Hlt (S k)); [done|lia].
  - exists i. apply list_find_Some. split_and!; [|done|].
    + by rewrite list_lookup_delete_lt by lia.
    + intros k y Hk Hki.
      rewrite list_lookup_delete_lt in Hk by lia. by apply (Hlt k).
Qed.

(** Two lookups that end at the same position found the same id. *)
Lemma findOne_same_position id1 id2 st i h1 h2 :
  findOne id1 st = Some (i, h1) → findOne id2 st = Some (i, h2) →
  id1 = id2 ∧ h1 = h2.
Proof.
  intros H1 H2.
  pose proof (findOne_lookup _ _ _ _ H1) as L1.
  pose proof (findOne_lookup _ _ _ _ H2) as L2.
  rewrite L1 in L2. injection L2 as <-.
  by rewrite <- (findOne_id _ _ _ _ H1), <- (findOne_id _ _ _ _ H2).
Qed.

(** *** Who can change a post *)

(** A post's author, title, text and creation date, and its presence
    in the collection, outlast every request except an UpdatePost or a
    DeletePost of that post sent by its author: no other caller and no
    other route can change or remove them. *)
Theorem post_content_protected r st id i h :
  findOne id st = Some (i, h) →
  (∀ user, Hoot.author h = Some (User._id user) →
           r ≠ DeletePost user (Param.hex id)
           ∧ ∀ body, r ≠ UpdatePost user (Param.hex id) body) →
  ∃ i' h',
    findOne id (router validate link users r st).2 = Some (i', h')
    ∧ Hoot._id h' = Hoot._id h
    ∧ Hoot.author h' = Hoot.author h
    ∧ Hoot.title h' = Hoot.title h
    ∧ Hoot.text h' = Hoot.text h
    ∧ Hoot.createdAt h' = Hoot.createdAt h.
Proof.
  intros Hfind Hother.
  destruct (router validate link users r st) as [resp st'] eqn:Hrun.
  apply router_step_eq in Hrun. simpl.
  inversion Hrun as [user body oid now resp' Hf Hv Hs
                    |user hootId body j hj resp' Hf Ha Hs
                    |user hootId j hj resp' Hf Ha Hs
                    |r' hootId j hj resp' Hr Hf Hv Hs
                    | | |]; subst.
  - exists i, h. split_and!; try done.
    unfold findOne in *. by apply list_find_app_l.
  - destruct (decide (j = i)) as [->|Hne].
    + destruct (findOne_same_position _ _ _ _ _ _ Hf Hfind) as [-> ->].
      by destruct (Hother user Ha) as [_ Hno], (Hno body).
    + exists i, h. split_and!; try done.
      apply findOne_insert_other; [done..|]. simpl.
      rewrite (findOne_id _ _ _ _ Hf). intros ->.
      rewrite Hf in Hfind. by simplify_eq.
  - destruct (decide (j = i)) as [->|Hne].
    + destruct (findOne_same_position _ _ _ _ _ _ Hf Hfind) as [-> ->].
      by destruct (Hother user Ha) as [Hno _].
    + destruct (findOne_delete_other _ _ _ _ j Hfind Hne) as [i' Hi'].
      exists i', h. by split_and!.
  - destruct (decide (j = i)) as [->|Hne].
    + destruct (findOne_same_position _ _ _ _ _ _ Hf Hfind) as [-> ->].
      exists i, (Hoot.set_comments (edited r (Hoot.comments h)) h).
      split_and!; try done.
      eapply findOne_insert; [done|]. simpl. by eapply findOne_id.
    + exists i, h. split_and!; try done.
      apply findOne_insert_other; [done..|]. simpl.
      rewrite (findOne_id _ _ _ _ Hf). intros ->.
      rewrite Hf in Hfind. by simplify_eq.
  - by exists i, h.
  - by exists i, h.
  - by exists i, h.
Qed.

(** Every request except a DeletePost leaves each post that is not the
    target of its path where it stood and as it was. *)
Theorem other_posts_untouched r st j h :
  (∀ user hootId, r ≠ DeletePost user hootId) →
  st !! j = Some h →
  target r ≠ Some (Param.hex (Hoot._id h)) →
  (router validate link users r st).2 !! j = Some h.
Proof.
  intros Hnodel Hj Htarget.
  destruct (router validate link users r st) as [resp st'] eqn:Hrun.
  apply router_step_eq in Hrun. simpl.
  inversion Hrun as [user body oid now resp' Hf Hv Hs
                    |user hootId body k hk resp' Hf Ha Hs
                    |user hootId k hk resp' Hf Ha Hs
                    |r' hootId k hk resp' Hr Hf Hv Hs
                    | | |]; subst; try done.
  - by apply lookup_app_l_Some.
  - rewrite list_lookup_insert_ne; [done|]. intros ->.
    rewrite (findOne_lookup _ _ _ _ Hf) in Hj. injection Hj as ->.
    simpl in Htarget. by rewrite (findOne_id _ _ _ _ Hf) in Htarget.
  - by destruct (Hnodel user (Param.hex hootId)).
  - rewrite list_lookup_insert_ne; [done|]. intros ->.
    rewrite (findOne_lookup _ _ _ _ Hf) in Hj. injection Hj as ->.
    rewrite (findOne_id _ _ _ _ Hf) in Htarget.
    destruct r; simpl in Hr, Htarget; try done; by subst.
Qed.

(** *** Unique ids *)

Lemma findOne_None_ids id st :
  findOne id st = None ↔ id ∉ Hoot._id <$> st.
Proof.
  unfold findOne. rewrite list_find_None, Forall_forall, list_elem_of_fmap.
  split.
  - intros Hall (x & -> & Hx). by apply (Hall x).
  - intros Hnot x Hx Hid. apply Hnot. by exists x.
Qed.

Lemma ids_insert_same (st : list Hoot.t) (i : nat) h h' :
  st !! i = Some h → Hoot._id h' = Hoot._id h →
  Hoot._id <$> <[i := h']> st = Hoot._id <$> st.
Proof.
  intros Hi Hid. rewrite list_fmap_insert, Hid.
  apply list_insert_id. by rewrite list_lookup_fmap, Hi.
Qed.

(** No request brings a second post of the same [_id] in. *)
Lemma router_unique_ids r st :
  unique_ids st → unique_ids (router validate link users r st).2.
Proof.
  unfold unique_ids. intros Hst.
  destruct (router validate link users r st) as [resp st'] eqn:Hrun.
  apply router_step_eq in Hrun. simpl.
  inversion Hrun as [user body oid now resp' Hf Hv Hs
                    |user hootId body k hk resp' Hf Ha Hs
                    |user hootId k hk resp' Hf Ha Hs
                    |r' hootId k hk resp' Hr Hf Hv Hs
                    | | |]; subst; try done.
  - rewrite fmap_app. apply NoDup_app. split_and!; [done| |].
    + intros x Hx. simpl. rewrite list_elem_of_singleton. intros ->.
      by apply findOne_None_ids in Hf.
    + simpl. apply NoDup_singleton.
  - by rewrite (ids_insert_same _ _ hk _ (findOne_lookup _ _ _ _ Hf)).
  - rewrite list_fmap_delete.
    eapply sublist_NoDup; [done|]. apply sublist_delete.
  - by rewrite (ids_insert_same _ _ hk _ (findOne_lookup _ _ _ _ Hf)).
Qed.

(** Whatever requests are served, a collection without two posts of
    the same [_id] stays one. *)
Theorem serve_unique_ids rs st :
  unique_ids st → unique_ids (serve validate link users rs st).
Proof.
  unfold serve. revert st.
  induction rs as [|r rs IH]; intros st Hst; simpl; [done|].
  apply IH. by apply router_unique_ids.
Qed.

(** *** Requests one after the other *)

Lemma post_accepted user body oid now st :
  findOne oid st = None →
  validate (Hoot.new oid now (Body.set_author (User._id user) body))
    = true →
  (router_post validate Up user body oid now st).2 =
    st ++ [Hoot.new oid now (Body.set_author (User._id user) body)].
Proof.
  intros Hfresh Hvalid. unfold router_post. run.
  rewrite Hvalid. simpl. by rewrite Hfresh.
Qed.

(** GetPost of a post just created answers 200 with that post: the
    title and text of the body, the comments the body carried (none
    when it carried none), the given date, and as [author] what the
    user collection holds for the caller's id, [null] when it holds
    nothing, whatever [author] the body named. *)
Theorem post_then_get user body oid now st :
  findOne oid st = None →
  validate (Hoot.new oid now (Body.set_author (User._id user) body))
    = true →
  ∃ j,
    router_get_hootId Up users (Param.hex oid)
      (router_post validate Up user body oid now st).2 =
      (res 200 (json (JHoot j)),
       (router_post validate Up user body oid now st).2)
    ∧ j_id j = oid
    ∧ j_author j = from_option Profile Null (users !! User._id user)
    ∧ j_title j = Field.get (Body.title body)
    ∧ j_text j = Field.get (Body.text body)
    ∧ j_comments j = comment_toJSON <$> default [] (Body.comments body)
    ∧ j_createdAt j = now.
Proof.
  intros Hfresh Hvalid.
  rewrite (post_accepted _ _ _ _ _ Hfresh Hvalid).
  exists (populate users
            (Hoot.new oid now (Body.set_author (User._id user) body))).
  split_and!; try reflexivity.
  eapply get_hootId_found. by apply findOne_app_new.
Qed.


Lemma findOne_delete_same id st i h :
  unique_ids st → findOne id st = Some (i, h) →
  findOne id (delete i st) = None.
Proof.
  unfold unique_ids. intros Huniq Hfind.
  apply findOne_None_ids. rewrite list_fmap_delete.
  intros Hin. apply list_elem_of_lookup_1 in Hin as [k Hk].
  assert ((Hoot._id <$> st) !! i = Some id) as Hi.
  { rewrite list_lookup_fmap, (findOne_lookup _ _ _ _ Hfind). simpl.
    by rewrite (findOne_id _ _ _ _ Hfind). }
  destruct (decide (k < i)%nat).
  - rewrite list_lookup_delete_lt in Hk by done.
    pose proof (NoDup_lookup _ _ _ _ Huniq Hi Hk). lia.
  - rewrite list_lookup_delete_ge in Hk by lia.
    pose proof (NoDup_lookup _ _ _ _ Huniq Hi Hk). lia.
Qed.

(** In a collection without two posts of the same [_id], a post
    deleted by its author is gone: GetPost then answers 200 with
    [null], and a second DeletePost or an UpdatePost fails. *)
Theorem delete_then_gone user hootId body st i h :
  unique_ids st →
  findOne hootId st = Some (i, h) →
  Hoot.author h = Some (User._id user) →
  (router_delete_hootId Up user (Param.hex hootId) st).2 = delete i st
  ∧ router_get_hootId Up users (Param.hex hootId) (delete i st) =
      (res 200 (json JNull), delete i st)
  ∧ router_delete_hootId Up user (Param.hex hootId) (delete i st) =
      (NotFound, delete i st)
  ∧ router_put_hootId Up user (Param.hex hootId) body (delete i st) =
      (NotFound, delete i st).
Proof.
  intros Huniq Hfind Ha.
  pose proof (findOne_delete_same _ _ _ _ Huniq Hfind) as Hgone.
  split_and!.
  - unfold router_delete_hootId. run.
    rewrite Hfind. simpl. rewrite Ha. simpl.
    unfold equals. rewrite bool_decide_eq_true_2 by done. simpl.
    by rewrite Hfind.
  - unfold router_get_hootId. run. by rewrite Hgone.
  - unfold router_delete_hootId. run. by rewrite Hgone.
  - unfold router_put_hootId. run. by rewrite Hgone.
Qed.

Lemma post_comments_found user hootId body oid now st i h :
  findOne hootId st = Some (i, h) →
  validate
    (Hoot.set_comments
       (comments_push (Hoot.comments h) oid now
          (Body.set_author (User._id user) body)) h) = true →
  (router_post_comments validate Up user (Param.hex hootId) body oid now st).2 =
    <[i := Hoot.set_comments
              (comments_push (Hoot.comments h) oid now
                 (Body.set_author (User._id user) body)) h]> st.
Proof.
  intros Hfind Hvalid.
  unfold router_post_comments, handle, mbind, M_bind.
  rewrite findById_hex.
  rewrite Hfind. simpl. rewrite (save_found _ _ _ _ _ Hfind), Hvalid.
  unfold comments_push. by rewrite comments_push_last.
Qed.

(** AddComment with an id that no comment of the post carries yet,
    followed by RemoveComment of that id, gives back the collection of
    before, when the schema accepts the post with and without the new
    comment. *)
Theorem add_then_remove_comment user hootId body oid now st i h :
  findOne hootId st = Some (i, h) →
  oid ∉ comment_ids (Hoot.comments h) →
  validate
    (Hoot.set_comments
       (comments_push (Hoot.comments h) oid now
          (Body.set_author (User._id user) body)) h) = true →
  validate h = true →
  router_delete_comment validate Up (Param.hex hootId) oid
    (router_post_comments validate Up user (Param.hex hootId) body oid now
       st).2 =
    (Acknowledgement, st).
Proof.
  intros Hfind Hfresh Hv1 Hv.
  rewrite (post_comments_found _ _ _ _ _ _ _ _ Hfind Hv1).
  set (h1 := Hoot.set_comments _ h).
  assert (findOne hootId (<[i := h1]> st) = Some (i, h1)) as Hfind1.
  { eapply findOne_insert; [done|]. simpl. by eapply findOne_id. }
  assert (Hoot.set_comments (comments_remove (Hoot.comments h1) oid) h1 = h)
    as Hback.
  { unfold h1, comments_push, comments_remove. simpl.
    rewrite filter_app, filter_cons_False, filter_nil, app_nil_r
      by (intros Hn; by apply Hn).
    pose proof (comments_remove_absent _ _ Hfresh) as E.
    unfold comments_remove in E. rewrite E. by destruct h. }
  rewrite (delete_comment_found _ _ _ _ _ Hfind1); rewrite Hback; [|done].
  rewrite list_insert_insert_eq.
  by rewrite list_insert_id by (by eapply findOne_lookup).
Qed.

(** A post created with a date later than that of every stored post
    heads the list that ListPosts answers next. *)
Theorem new_post_listed_first user body oid now st :
  findOne oid st = None →
  validate (Hoot.new oid now (Body.set_author (User._id user) body))
    = true →
  Forall (λ h, Hoot.createdAt h < now) st →
  ∃ rest,
    (router_get Up users (router_post validate Up user body oid now st).2).1 =
      res 200
        (json (JHoots
                 (populate users
                    (Hoot.new oid now
                       (Body.set_author (User._id user) body)) :: rest)))
    ∧ length rest = length st.
Proof.
  intros Hfresh Hvalid Hold.
  rewrite (post_accepted _ _ _ _ _ Hfresh Hvalid).
  set (hnew := Hoot.new oid now _).
  unfold router_get. run.
  pose proof (sort_desc_perm (st ++ [hnew])) as Hperm.
  pose proof (sort_desc_sorted (st ++ [hnew])) as Hsorted.
  destruct (sort_desc (st ++ [hnew])) as [|x l] eqn:Hl.
  { apply Permutation_length in Hperm. rewrite length_app in Hperm.
    simpl in Hperm. lia. }
  assert (x = hnew) as ->.
  { assert (hnew ∈ x :: l) as Hin.
    { rewrite Hperm. apply elem_of_app. right. apply list_elem_of_here. }
    apply list_elem_of_lookup_1 in Hin as [[|k] Hk]; [by injection Hk|].
    pose proof (StronglySorted_lookup_lt _ _ 0%nat (S k) x hnew Hsorted
                  eq_refl Hk ltac:(lia)) as Hord.
    unfold newer_first in Hord. simpl in Hord.
    assert (x ∈ st ++ [hnew]) as Hx.
    { rewrite <- Hperm. apply list_elem_of_here. }
    apply elem_of_app in Hx as [Hx|Hx].
    - rewrite Forall_forall in Hold. specialize (Hold x Hx). lia.
    - by apply list_elem_of_singleton in Hx. }
  exists (populate users <$> l). split; [done|].
  apply Permutation_length in Hperm.
  rewrite length_fmap. rewrite length_app in Hperm. simpl in Hperm. lia.
Qed.

(** *** Where a comment comes from *)



(** *** Posts and their author *)



(** The author of a post who sends an UpdatePost with [author: null]
    leaves the post without author; from then on every UpdatePost and
    DeletePost of that post, whoever sends it, reads a property of
    [null] and answers 500, the post staying as it is. *)
Theorem author_null_locks_post user hootId body st i h :
  findOne hootId st = Some (i, h) →
  Hoot.author h = Some (User._id user) →
  Body.author body = Field.null →
  ∃ h',
    (router_put_hootId Up user (Param.hex hootId) body st).2
      = <[i := h']> st
    ∧ findOne hootId (<[i := h']> st) = Some (i, h')
    ∧ Hoot.author h' = None
    ∧ ∀ caller body',
        router_put_hootId Up caller (Param.hex hootId) body'
          (<[i := h']> st) = (NotFound, <[i := h']> st)
        ∧ router_delete_hootId Up caller (Param.hex hootId)
            (<[i := h']> st) = (NotFound, <[i := h']> st).
Proof.
  intros Hfind Ha Hnull. exists (Hoot.assign body h).
  assert (findOne hootId (<[i := Hoot.assign body h]> st)
          = Some (i, Hoot.assign body h)) as Hfind'.
  { eapply findOne_insert; [done|]. simpl. by eapply findOne_id. }
  assert (Hoot.author (Hoot.assign body h) = None) as Hnone.
  { by rewrite assign_author, Hnull. }
  split_and!; [|done|done|].
  - by rewrite (put_hootId_by_author _ _ _ _ _ _ Hfind Ha).
  - intros caller body'.
    unfold router_put_hootId, router_delete_hootId. run.
    rewrite Hfind'. simpl. by rewrite Hnull.
Qed.

(** *** Requests that cannot be served *)

(** On every route with [:hootId] in its path, a string that does not
    cast to an ObjectId makes the first query reject: the handler
    answers 500 with the cast error and the collection is as it was,
    whether or not the database can be reached. *)
Theorem not_an_id_rejected user s commentId body oid now st :
  let rejected := (res 500 (json (JError CastError)), st) in
  router_get_hootId link users (Param.other s) st = rejected
  ∧ router_put_hootId link user (Param.other s) body st = rejected
  ∧ router_delete_hootId link user (Param.other s) st = rejected
  ∧ router_put_comment validate link (Param.other s) commentId body st
      = rejected
  ∧ router_post_comments validate link user (Param.other s) body oid now st
      = rejected
  ∧ router_delete_comment validate link (Param.other s) commentId st
      = rejected.
Proof.
  simpl.
  unfold router_get_hootId, router_put_hootId, router_delete_hootId,
    router_put_comment, router_post_comments, router_delete_comment.
  run. done.
Qed.

(** While the database cannot be reached every request is answered
    with status 500 and the collection is as it was; ListPosts then
    answers with the network error. *)
Theorem database_down_answers_500 r st :
  (∃ e, router validate Down users r st = (res 500 (json (JError e)), st))
  ∧ router_get Down users st = (res 500 (json (JError NetworkError)), st).
Proof.
  split; [|done].
  destruct r as [user body oid now| |p|user p body|user p
                |p commentId body|user p body oid now
                |p commentId]; simpl.
  - unfold router_post. run. destruct (validate _); simpl; eauto.
  - eauto.
  - unfold router_get_hootId. run. destruct p; simpl; eauto.
  - unfold router_put_hootId. run. destruct p; simpl; eauto.
  - unfold router_delete_hootId. run. destruct p; simpl; eauto.
  - unfold router_put_comment. run. destruct p; simpl; eauto.
  - unfold router_post_comments. run. destruct p; simpl; eauto.
  - unfold router_delete_comment. run. destruct p; simpl; eauto.
Qed.

End Properties.

(** * The statements at the sample data *)

(** C1.  UpdatePost lets the body replace the stored author.  Alice
    updates her own post with a body that names Bob as [author]: the
    handler answers 200 with Alice as [author], while the stored post
    now has Bob as its author; Alice is refused from then on and Bob is
    let through. *)
Theorem put_hootId_overwrites_author :
  ∃ st' h',
    router_put_hootId Up Sample.alice (Param.hex 1)
      Sample.hijack Sample.store
      = (res 200 (json (JHoot (with_author (Profile Sample.alice)
                                 (toJSON h')))), st')
    ∧ findOne 1 Sample.store = Some (0%nat, Sample.p1)
    ∧ Hoot.author Sample.p1 = Some (User._id Sample.alice)
    ∧ findOne 1 st' = Some (0%nat, h')
    ∧ Hoot.author h' = Some (User._id Sample.bob)
    ∧ Hoot.author h' ≠ Hoot.author Sample.p1
    ∧ (router_put_hootId Up Sample.alice (Param.hex 1)
         Sample.mine st').1 = Forbidden
    ∧ status (router_put_hootId Up Sample.bob (Param.hex 1)
                Sample.taken st').1 = 200%nat.
Proof.
  eexists _, _. split; [reflexivity|].
  split_and!; try reflexivity. discriminate.
Qed.

(** C4, as the claim has it, fails: on the empty collection GetPost of
    any id answers 200, which is no failure. *)
Lemma get_hootId_missing_is_no_failure :
  ¬ (∀ (users : gmap N User.t) (hootId : N) (st : list Hoot.t),
       findOne hootId st = None →
       failure (router_get_hootId Up users (Param.hex hootId) st).1).
Proof.
  intros Hclaim.
  specialize (Hclaim Sample.users 7%N [] eq_refl).
  unfold failure in Hclaim. simpl in Hclaim. lia.
Qed.

Lemma forbidden_no_mutation_witness :
  findOne 1 Sample.store = Some (0%nat, Sample.p1)
  ∧ Hoot.author Sample.p1 = Some 10%N
  ∧ 10%N ≠ User._id Sample.bob
  ∧ router_put_hootId Up Sample.bob (Param.hex 1) Sample.new_text
      Sample.store = (Forbidden, Sample.store)
  ∧ router_delete_hootId Up Sample.bob (Param.hex 1) Sample.store
      = (Forbidden, Sample.store).
Proof.
  refine (conj eq_refl (conj eq_refl (conj _ _))); [discriminate|].
  apply (forbidden_no_mutation Sample.bob 1%N _ Sample.store 0%nat
           Sample.p1 10%N); [reflexivity|reflexivity|discriminate].
Defined.

Lemma post_author_is_caller_witness :
  findOne 3 Sample.store = None
  ∧ Sample.text_required
      (Hoot.new 3 3000
         (Body.set_author (User._id Sample.alice)
            Sample.hoot_as_bob)) = true
  ∧ ∃ h,
      router_post Sample.text_required Up Sample.alice
        Sample.hoot_as_bob 3 3000 Sample.store =
        (res 201 (json (JHoot (with_author (Profile Sample.alice)
                                 (toJSON h)))),
         Sample.store ++ [h])
      ∧ findOne 3 (Sample.store ++ [h]) = Some (length Sample.store, h)
      ∧ Hoot.author h = Some (User._id Sample.alice)
      ∧ Hoot.title h = Some "t"%string
      ∧ Hoot.text h = Some "x"%string.
Proof.
  refine (conj eq_refl (conj eq_refl _)).
  apply (post_author_is_caller Sample.text_required Sample.alice
           Sample.hoot_as_bob 3%N 3000
           Sample.store); reflexivity.
Defined.

Lemma get_hootId_missing_witness :
  findOne 7 Sample.store = None
  ∧ router_get_hootId Up Sample.users (Param.hex 7) Sample.store
      = (res 200 (json JNull), Sample.store).
Proof.
  split; [reflexivity|].
  apply (get_hootId_missing Sample.users 7%N Sample.store). reflexivity.
Defined.

Lemma post_comments_appends_witness :
  (findOne 1 Sample.store = Some (0%nat, Sample.p1)
   ∧ ∃ c h',
       router_post_comments Sample.text_required Up Sample.bob (Param.hex 1)
         Sample.hi_as_alice 104 14 Sample.store =
         (res 201 (json (JComment (comment_with_author (Profile Sample.bob)
                                     (comment_toJSON c)))),
          <[0%nat := h']> Sample.store)
       ∧ findOne 1 (<[0%nat := h']> Sample.store) = Some (0%nat, h')
       ∧ Hoot.comments h' = Hoot.comments Sample.p1 ++ [c]
       ∧ length (Hoot.comments h') = S (length (Hoot.comments Sample.p1))
       ∧ Comment.author c = Some (User._id Sample.bob)
       ∧ Comment.text c = Some "hi"%string)
  ∧ (findOne 9 Sample.store = None
     ∧ router_post_comments Sample.text_required Up Sample.bob (Param.hex 9)
         Sample.hi_as_alice 104 14 Sample.store =
         (NotFound, Sample.store)).
Proof.
  split; (split; [reflexivity|]).
  - apply (proj1 (post_comments_appends Sample.text_required Sample.bob 1%N
                    Sample.hi_as_alice 104%N 14
                    Sample.store) 0%nat Sample.p1); reflexivity.
  - apply (proj2 (post_comments_appends Sample.text_required Sample.bob 9%N
                    Sample.hi_as_alice 104%N 14
                    Sample.store)); reflexivity.
Defined.

Lemma delete_comment_removes_one_witness :
  findOne 1 Sample.store = Some (0%nat, Sample.p1)
  ∧ Hoot.comments Sample.p1 = [Sample.c1] ++ Sample.c2 :: [Sample.c3]
  ∧ Comment._id Sample.c2 = 102%N
  ∧ (102%N ∉ comment_ids ([Sample.c1] ++ [Sample.c3]))
  ∧ Sample.text_required
      (Hoot.set_comments ([Sample.c1] ++ [Sample.c3]) Sample.p1) = true
  ∧ router_delete_comment Sample.text_required Up (Param.hex 1) 102
      Sample.store =
      (Acknowledgement,
       [Hoot.set_comments [Sample.c1; Sample.c3] Sample.p1; Sample.p2])
  ∧ findOne 1 [Hoot.set_comments [Sample.c1; Sample.c3] Sample.p1; Sample.p2]
      = Some (0%nat, Hoot.set_comments [Sample.c1; Sample.c3] Sample.p1)
  ∧ Hoot.comments (Hoot.set_comments [Sample.c1; Sample.c3] Sample.p1)
      = [Sample.c1; Sample.c3].
Proof.
  assert (102%N ∉ comment_ids ([Sample.c1] ++ [Sample.c3])) as Hothers
    by (apply (bool_decide_unpack _); vm_compute; exact I).
  refine (conj eq_refl (conj eq_refl (conj eq_refl (conj Hothers
            (conj eq_refl _))))).
  apply (delete_comment_removes_one Sample.text_required 1%N 102%N
           Sample.store 0%nat Sample.p1 [Sample.c1] Sample.c2 [Sample.c3]);
    [reflexivity|reflexivity|reflexivity|exact Hothers|reflexivity].
Defined.

Lemma put_comment_sets_text_only_witness :
  findOne 1 Sample.store = Some (0%nat, Sample.p1)
  ∧ Hoot.comments Sample.p1 = [Sample.c1] ++ Sample.c2 :: [Sample.c3]
  ∧ Comment._id Sample.c2 = 102%N
  ∧ (102%N ∉ comment_ids [Sample.c1])
  ∧ Sample.text_required
      (Hoot.set_comments
         ([Sample.c1] ++ Comment.set_text (Some "edited") Sample.c2
                      :: [Sample.c3]) Sample.p1) = true
  ∧ ∃ c' h',
      router_put_comment Sample.text_required Up (Param.hex 1) 102
        Sample.edit Sample.store =
        (Acknowledgement, <[0%nat := h']> Sample.store)
      ∧ findOne 1 (<[0%nat := h']> Sample.store) = Some (0%nat, h')
      ∧ (∀ j, j ≠ 0%nat →
              <[0%nat := h']> Sample.store !! j = Sample.store !! j)
      ∧ Hoot.comments h' = [Sample.c1] ++ c' :: [Sample.c3]
      ∧ length (Hoot.comments h') = length (Hoot.comments Sample.p1)
      ∧ Comment.text c' = Some "edited"%string
      ∧ Comment._id c' = Comment._id Sample.c2
      ∧ Comment.author c' = Comment.author Sample.c2
      ∧ Comment.createdAt c' = Comment.createdAt Sample.c2
      ∧ Hoot._id h' = Hoot._id Sample.p1
      ∧ Hoot.author h' = Hoot.author Sample.p1
      ∧ Hoot.title h' = Hoot.title Sample.p1
      ∧ Hoot.text h' = Hoot.text Sample.p1
      ∧ Hoot.createdAt h' = Hoot.createdAt Sample.p1.
Proof.
  assert (102%N ∉ comment_ids [Sample.c1]) as Hfirst
    by (apply (bool_decide_unpack _); vm_compute; exact I).
  refine (conj eq_refl (conj eq_refl (conj eq_refl (conj Hfirst
            (conj eq_refl _))))).
  apply (put_comment_sets_text_only Sample.text_required 1%N 102%N
           Sample.edit Sample.store 0%nat
           Sample.p1 [Sample.c1] Sample.c2 [Sample.c3]);
    [reflexivity|reflexivity|reflexivity|exact Hfirst|reflexivity].
Defined.

Lemma put_comment_not_found_iff_witness :
  findOne 9 Sample.store = None
  ∧ (∃ i h, findOne 1 Sample.store = Some (i, h)
            ∧ 777%N ∉ comment_ids (Hoot.comments h))
  ∧ (router_put_comment Sample.lenient Up (Param.hex 9) 101
       Sample.edit Sample.store).1 = NotFound
  ∧ (router_put_comment Sample.lenient Up (Param.hex 1) 777
       Sample.edit Sample.store).1 = NotFound
  ∧ (router_put_comment Sample.lenient Up (Param.hex 1) 777
       Sample.edit Sample.store).2 = Sample.store
  ∧ (router_put_comment Sample.text_required Up (Param.hex 1) 101
       Sample.empty Sample.store).1 ≠ NotFound.
Proof.
  assert (∃ i h, findOne 1 Sample.store = Some (i, h)
                 ∧ 777%N ∉ comment_ids (Hoot.comments h)) as Hno.
  { exists 0%nat, Sample.p1. split; [reflexivity|].
    apply (bool_decide_unpack _); vm_compute; exact I. }
  refine (conj eq_refl (conj Hno _)).
  pose proof (put_comment_not_found_iff Sample.lenient 9%N 101%N
                Sample.edit Sample.store) as [H9 _].
  pose proof (put_comment_not_found_iff Sample.lenient 1%N 777%N
                Sample.edit Sample.store)
    as [H777 Hst].
  pose proof (put_comment_not_found_iff Sample.text_required 1%N 101%N
                Sample.empty Sample.store) as [H101 _].
  split_and!.
  - apply H9. by left.
  - apply H777. by right.
  - apply Hst, H777. by right.
  - discriminate.
Defined.

Lemma get_lists_newest_first_witness :
  Sample.p1 ∈ Sample.store
  ∧ Sample.p2 ∈ Sample.store
  ∧ Hoot.createdAt Sample.p1 < Hoot.createdAt Sample.p2
  ∧ ∃ hoots,
      router_get Up Sample.users Sample.store =
        (res 200 (json (JHoots (populate Sample.users <$> hoots))),
         Sample.store)
      ∧ hoots ≡ₚ Sample.store
      ∧ ∃ i j, (i < j)%nat
               ∧ (populate Sample.users <$> hoots) !! i
                   = Some (populate Sample.users Sample.p2)
               ∧ (populate Sample.users <$> hoots) !! j
                   = Some (populate Sample.users Sample.p1).
Proof.
  assert (Sample.p1 ∈ Sample.store) as H1 by apply list_elem_of_here.
  assert (Sample.p2 ∈ Sample.store) as H2
    by apply list_elem_of_further, list_elem_of_here.
  refine (conj H1 (conj H2 (conj eq_refl _))).
  destruct (get_lists_newest_first Sample.users Sample.store)
    as (hoots & Hrun & Hperm & _ & Horder & _).
  exists hoots. split_and!; [exact Hrun|exact Hperm|].
  apply (Horder Sample.p1 Sample.p2 H1 H2). reflexivity.
Defined.

Lemma delete_comment_absent_is_ok_witness :
  findOne 1 Sample.store = Some (0%nat, Sample.p1)
  ∧ (999%N ∉ comment_ids (Hoot.comments Sample.p1))
  ∧ Sample.text_required Sample.p1 = true
  ∧ router_delete_comment Sample.text_required Up (Param.hex 1) 999
      Sample.store
      = (Acknowledgement, Sample.store).
Proof.
  assert (999%N ∉ comment_ids (Hoot.comments Sample.p1)) as Habsent
    by (apply (bool_decide_unpack _); vm_compute; exact I).
  refine (conj eq_refl (conj Habsent (conj eq_refl _))).
  apply (delete_comment_absent_is_ok Sample.text_required 1%N 999%N
           Sample.store 0%nat Sample.p1); [reflexivity|exact Habsent|
                                            reflexivity].
Defined.


(** ** The further properties at the sample data *)

Lemma post_rejected_witness :
  (Sample.text_required
     (Hoot.new 3 3000
        (Body.set_author (User._id Sample.alice)
           Sample.no_text)) = false
   ∨ is_Some (findOne 3 Sample.store))
  ∧ ∃ e,
      router_post Sample.text_required Up Sample.alice
        Sample.no_text 3 3000 Sample.store =
        (res 500 (json (JError e)), Sample.store)
      ∧ (e = ValidationError ∨ e = DuplicateKey)
      ∧ (e = ValidationError ↔
         Sample.text_required
           (Hoot.new 3 3000
              (Body.set_author (User._id Sample.alice)
                 Sample.no_text)) = false).
Proof.
  split; [left; reflexivity|].
  apply (post_rejected Sample.text_required Sample.alice
           Sample.no_text 3%N 3000 Sample.store).
  left. reflexivity.
Defined.

Lemma missing_post_not_found_witness :
  findOne 9 Sample.store = None
  ∧ router_put_hootId Up Sample.alice (Param.hex 9) Sample.new_text
      Sample.store = (NotFound, Sample.store)
  ∧ router_delete_hootId Up Sample.alice (Param.hex 9) Sample.store
      = (NotFound, Sample.store)
  ∧ router_delete_comment Sample.lenient Up (Param.hex 9) 101 Sample.store
      = (NotFound, Sample.store).
Proof.
  split; [reflexivity|].
  apply (missing_post_not_found Sample.lenient Sample.alice 9%N 101%N
           Sample.new_text Sample.store). reflexivity.
Defined.

Lemma comment_save_rejected_witness :
  findOne 1 Sample.store = Some (0%nat, Sample.p1)
  ∧ Sample.text_required
      (Hoot.set_comments
         (comments_push (Hoot.comments Sample.p1) 104 14
            (Body.set_author (User._id Sample.bob) Sample.empty))
         Sample.p1) = false
  ∧ router_post_comments Sample.text_required Up Sample.bob (Param.hex 1)
      Sample.empty 104 14 Sample.store =
      (res 500 (json (JError ValidationError)), Sample.store)
  ∧ router_put_comment Sample.text_required Up (Param.hex 1) 102
      Sample.empty Sample.store =
      (res 500 (json (JError ValidationError)), Sample.store).
Proof.
  destruct (comment_save_rejected Sample.text_required Sample.bob 1%N 102%N
              Sample.empty 104%N 14 Sample.store 0%nat
              Sample.p1 eq_refl) as (Hadd & _ & Hput).
  refine (conj eq_refl (conj eq_refl (conj (Hadd eq_refl) _))).
  apply (Hput 1%nat Sample.c2); reflexivity.
Defined.


Lemma delete_hootId_by_author_witness :
  findOne 1 Sample.store = Some (0%nat, Sample.p1)
  ∧ Hoot.author Sample.p1 = Some (User._id Sample.alice)
  ∧ router_delete_hootId Up Sample.alice (Param.hex 1) Sample.store =
      (res 200 (json (JHoot (toJSON Sample.p1))), [Sample.p2])
  ∧ j_author (toJSON Sample.p1) = Ref 10.
Proof.
  refine (conj eq_refl (conj eq_refl _)).
  destruct (delete_hootId_by_author Sample.alice 1%N Sample.store 0%nat
              Sample.p1 eq_refl eq_refl) as (Hrun & Href & _).
  exact (conj Hrun Href).
Defined.

Lemma delete_comment_removes_all_witness :
  findOne 3 [Sample.p3] = Some (0%nat, Sample.p3)
  ∧ Sample.text_required
      (Hoot.set_comments (comments_remove (Hoot.comments Sample.p3) 101)
         Sample.p3) = true
  ∧ ∃ h',
      router_delete_comment Sample.text_required Up (Param.hex 3) 101
        [Sample.p3] =
        (Acknowledgement, <[0%nat := h']> [Sample.p3])
      ∧ findOne 3 (<[0%nat := h']> [Sample.p3]) = Some (0%nat, h')
      ∧ (101%N ∉ comment_ids (Hoot.comments h'))
      ∧ (Hoot.comments h' `sublist_of` Hoot.comments Sample.p3)
      ∧ (∀ c, c ∈ Hoot.comments h' ↔
              c ∈ Hoot.comments Sample.p3 ∧ Comment._id c ≠ 101%N)
      ∧ router_put_comment Sample.text_required Up (Param.hex 3) 101
          Sample.edit (<[0%nat := h']> [Sample.p3])
          = (NotFound, <[0%nat := h']> [Sample.p3]).
Proof.
  refine (conj eq_refl (conj eq_refl _)).
  apply (delete_comment_removes_all Sample.text_required 3%N 101%N
           Sample.edit [Sample.p3] 0%nat Sample.p3);
    reflexivity.
Defined.

Lemma failure_leaves_unchanged_witness :
  failure (router Sample.text_required Up Sample.users
             (UpdatePost Sample.bob (Param.hex 1) Sample.new_text)
             Sample.store).1
  ∧ (router Sample.text_required Up Sample.users
       (UpdatePost Sample.bob (Param.hex 1) Sample.new_text)
       Sample.store).2 = Sample.store.
Proof.
  assert (failure (router Sample.text_required Up Sample.users
                     (UpdatePost Sample.bob (Param.hex 1) Sample.new_text)
                     Sample.store).1) as Hfail
    by (unfold failure; simpl; lia).
  split; [exact Hfail|].
  exact (failure_leaves_unchanged Sample.text_required Up Sample.users _ _
           Hfail).
Defined.

Lemma post_content_protected_witness :
  findOne 1 Sample.store = Some (0%nat, Sample.p1)
  ∧ (∀ user, Hoot.author Sample.p1 = Some (User._id user) →
       UpdatePost Sample.bob (Param.hex 1) Sample.forged
         ≠ DeletePost user (Param.hex 1)
       ∧ ∀ body,
           UpdatePost Sample.bob (Param.hex 1) Sample.forged
             ≠ UpdatePost user (Param.hex 1) body)
  ∧ ∃ i' h',
      findOne 1
        (router Sample.text_required Up Sample.users
           (UpdatePost Sample.bob (Param.hex 1) Sample.forged)
           Sample.store).2 = Some (i', h')
      ∧ Hoot._id h' = Hoot._id Sample.p1
      ∧ Hoot.author h' = Hoot.author Sample.p1
      ∧ Hoot.title h' = Hoot.title Sample.p1
      ∧ Hoot.text h' = Hoot.text Sample.p1
      ∧ Hoot.createdAt h' = Hoot.createdAt Sample.p1.
Proof.
  assert (∀ user, Hoot.author Sample.p1 = Some (User._id user) →
            UpdatePost Sample.bob (Param.hex 1) Sample.forged
              ≠ DeletePost user (Param.hex 1)
            ∧ ∀ body,
                UpdatePost Sample.bob (Param.hex 1) Sample.forged
                  ≠ UpdatePost user (Param.hex 1) body) as Hother.
  { intros user Hu. split; [discriminate|].
    intros body Heq. injection Heq as <- _. discriminate Hu. }
  refine (conj eq_refl (conj Hother _)).
  exact (post_content_protected Sample.text_required Up Sample.users _
           Sample.store 1%N 0%nat Sample.p1 eq_refl Hother).
Defined.

Lemma other_posts_untouched_witness :
  (∀ user hootId,
     UpdatePost Sample.alice (Param.hex 1) Sample.new_text
       ≠ DeletePost user hootId)
  ∧ Sample.store !! 1%nat = Some Sample.p2
  ∧ target (UpdatePost Sample.alice (Param.hex 1) Sample.new_text)
      ≠ Some (Param.hex (Hoot._id Sample.p2))
  ∧ (router Sample.text_required Up Sample.users
       (UpdatePost Sample.alice (Param.hex 1) Sample.new_text)
       Sample.store).2 !! 1%nat = Some Sample.p2.
Proof.
  assert (∀ user hootId,
            UpdatePost Sample.alice (Param.hex 1) Sample.new_text
              ≠ DeletePost user hootId) as Hnodel by discriminate.
  assert (target (UpdatePost Sample.alice (Param.hex 1) Sample.new_text)
            ≠ Some (Param.hex (Hoot._id Sample.p2))) as Htarget
    by discriminate.
  refine (conj Hnodel (conj eq_refl (conj Htarget _))).
  exact (other_posts_untouched Sample.text_required Up Sample.users _
           Sample.store 1%nat Sample.p2 Hnodel eq_refl Htarget).
Defined.

Lemma serve_unique_ids_witness :
  unique_ids Sample.store
  ∧ unique_ids
      (serve Sample.text_required Up Sample.users
         [CreatePost Sample.bob Sample.draft 3 3000;
          CreatePost Sample.bob Sample.draft 3 3001;
          DeletePost Sample.alice (Param.hex 1)]
         Sample.store).
Proof.
  assert (unique_ids Sample.store) as Huniq
    by (apply (bool_decide_unpack _); vm_compute; exact I).
  split; [exact Huniq|].
  exact (serve_unique_ids Sample.text_required Up Sample.users _
           Sample.store Huniq).
Defined.

Lemma post_then_get_witness :
  findOne 3 Sample.store = None
  ∧ Sample.text_required
      (Hoot.new 3 3000
         (Body.set_author (User._id Sample.alice) Sample.draft)) = true
  ∧ ∃ j,
      router_get_hootId Up Sample.users (Param.hex 3)
        (router_post Sample.text_required Up Sample.alice Sample.draft
           3 3000 Sample.store).2 =
        (res 200 (json (JHoot j)),
         (router_post Sample.text_required Up Sample.alice Sample.draft
            3 3000 Sample.store).2)
      ∧ j_id j = 3%N
      ∧ j_author j
        = from_option Profile Null (Sample.users !! User._id Sample.alice)
      ∧ j_title j = Some "t"%string
      ∧ j_text j = Some "x"%string
      ∧ j_comments j = [comment_toJSON Sample.c1]
      ∧ j_createdAt j = 3000.
Proof.
  refine (conj eq_refl (conj eq_refl _)).
  apply (post_then_get Sample.text_required Sample.users Sample.alice
           Sample.draft 3%N 3000 Sample.store); reflexivity.
Defined.


Lemma delete_then_gone_witness :
  unique_ids Sample.store
  ∧ findOne 1 Sample.store = Some (0%nat, Sample.p1)
  ∧ Hoot.author Sample.p1 = Some (User._id Sample.alice)
  ∧ (router_delete_hootId Up Sample.alice (Param.hex 1) Sample.store).2
      = [Sample.p2]
  ∧ router_get_hootId Up Sample.users (Param.hex 1) [Sample.p2] =
      (res 200 (json JNull), [Sample.p2])
  ∧ router_delete_hootId Up Sample.alice (Param.hex 1) [Sample.p2] =
      (NotFound, [Sample.p2])
  ∧ router_put_hootId Up Sample.alice (Param.hex 1) Sample.new_text
      [Sample.p2] = (NotFound, [Sample.p2]).
Proof.
  assert (unique_ids Sample.store) as Huniq
    by (apply (bool_decide_unpack _); vm_compute; exact I).
  refine (conj Huniq (conj eq_refl (conj eq_refl _))).
  exact (delete_then_gone Sample.users Sample.alice 1%N Sample.new_text
           Sample.store 0%nat Sample.p1 Huniq eq_refl eq_refl).
Defined.

Lemma add_then_remove_comment_witness :
  findOne 1 Sample.store = Some (0%nat, Sample.p1)
  ∧ (104%N ∉ comment_ids (Hoot.comments Sample.p1))
  ∧ Sample.text_required
      (Hoot.set_comments
         (comments_push (Hoot.comments Sample.p1) 104 14
            (Body.set_author (User._id Sample.bob) Sample.hi))
         Sample.p1) = true
  ∧ Sample.text_required Sample.p1 = true
  ∧ router_delete_comment Sample.text_required Up (Param.hex 1) 104
      (router_post_comments Sample.text_required Up Sample.bob (Param.hex 1)
         Sample.hi 104 14 Sample.store).2 =
      (Acknowledgement, Sample.store).
Proof.
  assert (104%N ∉ comment_ids (Hoot.comments Sample.p1)) as Hfresh
    by (apply (bool_decide_unpack _); vm_compute; exact I).
  refine (conj eq_refl (conj Hfresh (conj eq_refl (conj eq_refl _)))).
  exact (add_then_remove_comment Sample.text_required Sample.bob 1%N
           Sample.hi 104%N 14 Sample.store 0%nat Sample.p1
           eq_refl Hfresh eq_refl eq_refl).
Defined.

Lemma new_post_listed_first_witness :
  findOne 3 Sample.store = None
  ∧ Sample.text_required
      (Hoot.new 3 3000
         (Body.set_author (User._id Sample.alice) Sample.draft)) = true
  ∧ Forall (λ h, Hoot.createdAt h < 3000) Sample.store
  ∧ ∃ rest,
      (router_get Up Sample.users
         (router_post Sample.text_required Up Sample.alice Sample.draft
            3 3000 Sample.store).2).1 =
        res 200
          (json (JHoots
                   (populate Sample.users
                      (Hoot.new 3 3000
                         (Body.set_author (User._id Sample.alice)
                            Sample.draft))
                    :: rest)))
      ∧ length rest = length Sample.store.
Proof.
  assert (Forall (λ h, Hoot.createdAt h < 3000) Sample.store) as Hold
    by (repeat constructor).
  refine (conj eq_refl (conj eq_refl (conj Hold _))).
  exact (new_post_listed_first Sample.text_required Sample.users
           Sample.alice Sample.draft 3%N 3000 Sample.store
           eq_refl eq_refl Hold).
Defined.



Lemma author_null_locks_post_witness :
  findOne 1 Sample.store = Some (0%nat, Sample.p1)
  ∧ Hoot.author Sample.p1 = Some (User._id Sample.alice)
  ∧ Body.author Sample.orphan = Field.null
  ∧ ∃ h',
      (router_put_hootId Up Sample.alice (Param.hex 1) Sample.orphan
         Sample.store).2 = <[0%nat := h']> Sample.store
      ∧ findOne 1 (<[0%nat := h']> Sample.store) = Some (0%nat, h')
      ∧ Hoot.author h' = None
      ∧ ∀ caller body',
          router_put_hootId Up caller (Param.hex 1) body'
            (<[0%nat := h']> Sample.store)
            = (NotFound, <[0%nat := h']> Sample.store)
          ∧ router_delete_hootId Up caller (Param.hex 1)
              (<[0%nat := h']> Sample.store)
              = (NotFound, <[0%nat := h']> Sample.store).
Proof.
  refine (conj eq_refl (conj eq_refl (conj eq_refl _))).
  apply (author_null_locks_post Sample.alice 1%N Sample.orphan
           Sample.store 0%nat Sample.p1); reflexivity.
Defined.
